(** * A shallow embedding of the web automation agent

    The program under study ([webautomationagent.py]) drives a browser
    through an observe / plan / act loop.  It has three classes:

    - [DOMSimplifier]: prunes a parsed page down to the tags and
      attributes that matter for picking a selector;
    - [AgentPlanner]: asks a reasoning service for the next action and
      falls back to a [finish] plan when the call or the JSON decoding
      fails;
    - [WebAgent]: the loop itself, with its history, its collected data
      and the executor for the four actions.

    Python values are embedded as an inductive type, exceptions as
    values, and the browser, the reasoning service and the third-party
    libraries (bs4, json) as an explicit environment of operations over an
    abstract world that is threaded through every call. *)

From Stdlib Require Import String Ascii List Bool Arith ZArith Lia Sorted.
Import ListNotations.
Local Open Scope string_scope.
Local Open Scope list_scope.

Set Implicit Arguments.
Set Warnings "-register-all".

(* ================================================================== *)
(** * Python values, exceptions and strings *)
(* ================================================================== *)

(** What [json.loads] can produce, which is also what a plan's fields and
    a scraped link can hold.  A [dict] keeps its entries in insertion
    order; its keys are pairwise distinct. *)
Inductive pyval : Type :=
| PNone
| PBool (b : bool)
| PInt (z : Z)
| PFloat (repr : string)
| PStr (s : string)
| PList (items : list pyval)
| PDict (entries : list (string * pyval)).

(** An instance of [Exception]: its class name and [str(e)]. *)
Record exn : Type := Exn { exn_class : string; exn_str : string }.

(** The outcome of an expression that may raise. *)
Inductive result (A : Type) : Type :=
| Ok (a : A)
| Raised (e : exn).
Arguments Ok {A} a.
Arguments Raised {A} e.

(** [d.get(key)] on a dict: the value, or [None] when the key is absent. *)
Fixpoint dict_get (entries : list (string * pyval)) (key : string) : pyval :=
  match entries with
  | [] => PNone
  | (k, v) :: rest => if String.eqb k key then v else dict_get rest key
  end.

(** [x == "literal"] for an arbitrary Python value [x]: true only for the
    very same string. *)
Definition py_eq_str (x : pyval) (lit : string) : bool :=
  match x with
  | PStr s => String.eqb s lit
  | _ => false
  end.

(** Characters are code points below 256.  [str.isspace] holds on
    TAB..CR (9-13), FS..US (28-31), the space, NEL (133) and NBSP (160). *)
Definition isspace (c : ascii) : bool :=
  let n := nat_of_ascii c in
  (((9 <=? n) && (n <=? 13)) || ((28 <=? n) && (n <=? 32))
   || (n =? 133) || (n =? 160))%nat.

Fixpoint lstrip (s : string) : string :=
  match s with
  | EmptyString => EmptyString
  | String c rest => if isspace c then lstrip rest else s
  end.

(** [rstrip] drops the trailing run of whitespace: a character is kept
    when something survives to its right or when it is not whitespace. *)
Fixpoint rstrip (s : string) : string :=
  match s with
  | EmptyString => EmptyString
  | String c rest =>
      match rstrip rest with
      | EmptyString => if isspace c then EmptyString else String c EmptyString
      | kept => String c kept
      end
  end.

(** [s.strip()] *)
Definition strip (s : string) : string := rstrip (lstrip s).

(** Truth value of a string in a condition: non-empty. *)
Definition str_truthy (s : string) : bool :=
  match s with
  | EmptyString => false
  | String _ _ => true
  end.

(* ================================================================== *)
(** * The parsed page (bs4) *)
(* ================================================================== *)

(** An attribute value: a string, or a list of strings for the
    multi-valued attributes ([class], [rel], ...). *)
Inductive attr_value : Type :=
| AttrStr (s : string)
| AttrList (l : list string).

Inductive string_kind : Type :=
| KText | KComment | KCData | KDoctype | KDeclaration | KProcessing.

(** A node of the parse tree: a [Tag] object with its name, its [attrs]
    dict (in insertion order) and its [contents], or a [NavigableString]
    of some kind.  A tag carries the identity of the Python object it is:
    the loops of the simplifier first list tags and then change them one
    by one, and a listed tag is found again in the tree by identity. *)
Inductive node : Type :=
| Tag (ident : nat) (name : string) (attrs : list (string * attr_value))
      (contents : list node)
| NavigableString (kind : string_kind) (s : string).

(** The [BeautifulSoup] object is the root; it is represented by its
    [contents]. *)
Definition soup : Type := list node.

Section node_induction.
Variable P : node -> Prop.
Hypothesis P_tag :
  forall ident name attrs contents,
    Forall P contents -> P (Tag ident name attrs contents).
Hypothesis P_string : forall kind s, P (NavigableString kind s).

Fixpoint node_forall_ind (n : node) : P n :=
  match n with
  | Tag ident name attrs contents =>
      P_tag ident name attrs
        ((fix all (l : list node) : Forall P l :=
            match l with
            | [] => Forall_nil P
            | c :: rest => Forall_cons c (node_forall_ind c) (all rest)
            end) contents)
  | NavigableString kind s => P_string kind s
  end.
End node_induction.

(** A tag as a result of [find_all]: which object, and its name and
    attributes when it was listed. *)
Record tag : Type :=
  TagOf { tag_ident : nat;
          tag_name : string;
          tag_attrs : list (string * attr_value) }.

(** [find_all] from a node: the node itself when it is a tag with a
    wanted name, then what is found below it, in document order. *)
Fixpoint find_all_from (wanted : string -> bool) (n : node) : list tag :=
  match n with
  | Tag ident name attrs contents =>
      (if wanted name then [TagOf ident name attrs] else [])
      ++ flat_map (find_all_from wanted) contents
  | NavigableString _ _ => []
  end.

(** [soup.find_all(...)], also written [soup(...)]: every tag of the
    document with a wanted name. *)
Definition find_all (wanted : string -> bool) (s : soup) : list tag :=
  flat_map (find_all_from wanted) s.

(** [find_all(True)] *)
Definition any_name (_ : string) : bool := true.

Definition all_tags (s : soup) : list tag := find_all any_name s.

(** [element.decompose()]: the tag, with everything below it, leaves the
    tree; on a tag that is no longer in the tree, the tree stays as it
    is. *)
Fixpoint decompose_from (element : nat) (n : node) : list node :=
  match n with
  | Tag ident name attrs contents =>
      if (ident =? element)%nat then []
      else [Tag ident name attrs (flat_map (decompose_from element) contents)]
  | NavigableString _ _ => [n]
  end.

Definition decompose (element : nat) (s : soup) : soup :=
  flat_map (decompose_from element) s.

(** [tag.attrs = f(tag.attrs)] on the tag of the given identity. *)
Fixpoint update_attrs_in (element : nat)
         (f : list (string * attr_value) -> list (string * attr_value))
         (n : node) : node :=
  match n with
  | Tag ident name attrs contents =>
      Tag ident name (if (ident =? element)%nat then f attrs else attrs)
          (map (update_attrs_in element f) contents)
  | NavigableString _ _ => n
  end.

Definition update_attrs (element : nat)
           (f : list (string * attr_value) -> list (string * attr_value))
           (s : soup) : soup :=
  map (update_attrs_in element f) s.

Definition mem_string (x : string) (l : list string) : bool :=
  existsb (String.eqb x) l.

Module DOMSimplifier.

(** The names passed to [soup([...])]. *)
Definition removed_tags : list string :=
  ["script"; "style"; "svg"; "path"; "head"; "meta"; "noscript"; "footer"].

Definition allowed_attrs : list string :=
  ["id"; "name"; "class"; "href"; "type"; "placeholder"; "aria-label"; "role"].

(** [for element in soup([...]): element.decompose()]: the tags are
    listed first, then decomposed in turn. *)
Definition remove_heavy_tags (s : soup) : soup :=
  fold_left (fun tree element => decompose (tag_ident element) tree)
            (find_all (fun name => mem_string name removed_tags) s) s.

(** [{k: v for k, v in tag.attrs.items() if k in allowed_attrs}] *)
Definition keep_allowed (attrs : list (string * attr_value))
  : list (string * attr_value) :=
  filter (fun kv => mem_string (fst kv) allowed_attrs) attrs.

(** [for tag in soup.find_all(True): tag.attrs = {...}] *)
Definition simplify_attributes (s : soup) : soup :=
  fold_left (fun tree t => update_attrs (tag_ident t) keep_allowed tree)
            (find_all any_name s) s.

(** The tree that [simplify] serialises. *)
Definition simplify_soup (s : soup) : soup :=
  simplify_attributes (remove_heavy_tags s).

Section with_bs4.
(** [BeautifulSoup(html_content, 'html.parser')] and [soup.prettify()]
    belong to bs4. *)
Variable bs4_parse : string -> soup.
Variable bs4_prettify : soup -> string.

Definition simplify (html_content : string) : string :=
  bs4_prettify (simplify_soup (bs4_parse html_content)).
End with_bs4.

(** A tag that the first loop leaves in the tree: its name is none of the
    removed ones. *)
Definition name_kept (t : tag) : Prop := ~ In (tag_name t) removed_tags.

(** Attributes that the second loop leaves on a tag. *)
Definition attrs_allowed (attrs : list (string * attr_value)) : Prop :=
  Forall (fun kv => In (fst kv) allowed_attrs) attrs.

(** Where a tag of the tree after an update of attributes comes from. *)
Definition updated_from (element : nat) (t t0 : tag) : Prop :=
  tag_ident t = tag_ident t0 /\ tag_name t = tag_name t0
  /\ tag_attrs t
     = if (tag_ident t0 =? element)%nat
       then keep_allowed (tag_attrs t0) else tag_attrs t0.

(** A tag is clean when its name is none of the removed ones and all its
    attribute names are allowed. *)
Definition clean_tag (t : tag) : Prop :=
  name_kept t /\ attrs_allowed (tag_attrs t).

End DOMSimplifier.

(* ================================================================== *)
(** * The live page as the link-extraction script sees it *)
(* ================================================================== *)

(** A JavaScript value handed back by [el.evaluate]: [null],
    [undefined], a string, or anything else, kept as the Python value it
    is serialised to. *)
Inductive jsval : Type :=
| JSNull
| JSUndefined
| JSString (s : string)
| JSOther (serialised : pyval).

(** How [evaluate] hands a JavaScript value to Python. *)
Definition py_of_js (v : jsval) : pyval :=
  match v with
  | JSNull => PNone
  | JSUndefined => PNone
  | JSString s => PStr s
  | JSOther p => p
  end.

(** An element of the rendered document: its [tagName], its [href]
    property and its child elements in document order. *)
Inductive element : Type :=
| Element (tagName : string) (href : jsval) (children : list element).

Definition tagName (e : element) : string :=
  match e with Element t _ _ => t end.

Definition href (e : element) : jsval :=
  match e with Element _ h _ => h end.

Definition children (e : element) : list element :=
  match e with Element _ _ c => c end.

(** An element handle points at an element inside a document: the
    element, and its ancestors from the parent up to the root. *)
Record located : Type :=
  Located { target : element; ancestors : list element }.

(** The page is an HTML document: an HTML anchor reports the tag name
    [A], an anchor of a foreign namespace (SVG) reports [a]; the type
    selector [a] matches both. *)
Definition matches_a (e : element) : bool :=
  String.eqb (tagName e) "A" || String.eqb (tagName e) "a".

(** The elements below a given one, in document order. *)
Fixpoint descendants (e : element) : list element :=
  match e with
  | Element _ _ cs => flat_map (fun c => c :: descendants c) cs
  end.

(** [el.closest('a')]: the element itself or its nearest ancestor that
    matches, [null] when there is none. *)
Definition closest_a (el : located) : option element :=
  find matches_a (target el :: ancestors el).

(** [el.querySelector('a')]: the first matching descendant in document
    order. *)
Definition querySelector_a (el : located) : option element :=
  find matches_a (descendants (target el)).

(** The function passed to [el.evaluate]:
<<
    el => {
      if (el.tagName === 'A') return el.href;
      if (el.closest('a')) return el.closest('a').href;
      const child = el.querySelector('a');
      return child ? child.href : null;
    }
>> *)
Definition extract_link (el : located) : jsval :=
  if String.eqb (tagName (target el)) "A" then href (target el)
  else
    match closest_a el with
    | Some a => href a
    | None =>
        match querySelector_a el with
        | Some child => href child
        | None => JSNull
        end
    end.

(** The resolution order as the specification words it: the element when
    it is a link, else its nearest enclosing link, else its first
    descendant link, else nothing. *)
Definition link_by_order (el : located) : jsval :=
  if matches_a (target el) then href (target el)
  else
    match find matches_a (ancestors el) with
    | Some enclosing => href enclosing
    | None =>
        match find matches_a (descendants (target el)) with
        | Some inner => href inner
        | None => JSNull
        end
    end.

(** An element's href as the Python side receives it: a string as that
    string, [null] and [undefined] as [None]. *)
Definition href_value (e : element) : pyval :=
  match href e with
  | JSString url => PStr url
  | JSNull => PNone
  | JSUndefined => PNone
  | JSOther serialised => serialised
  end.

(** The link field of a scraped item as the specification words it: the
    element's own href when the element is a link, else the href of its
    nearest enclosing link, else the href of its first descendant link,
    else [None]. *)
Definition link_field_by_order (place : located) : pyval :=
  if matches_a (target place) then href_value (target place)
  else
    match find matches_a (ancestors place) with
    | Some enclosing => href_value enclosing
    | None =>
        match find matches_a (descendants (target place)) with
        | Some inner => href_value inner
        | None => PNone
        end
    end.

(* ================================================================== *)
(** * The outside world *)
(* ================================================================== *)

(** The [state] argument of [wait_for_selector]. *)
Inductive wait_state : Type := Visible | Attached.

(** The prompt is a fixed template around four values: the goal, the
    history, the current URL and the first 30000 characters of the
    simplified page. *)
Record prompt : Type :=
  Prompt { prompt_goal : string;
           prompt_history : list string;
           prompt_url : string;
           prompt_html : string }.

(** One scraped element: [{"text": ..., "link": ...}]. *)
Record item : Type := Item { text : string; link : pyval }.

(** One entry of [collected_data]: [{"step": step, "data": data}]. *)
Record scrape_record : Type :=
  ScrapeRecord { rec_step : nat; rec_data : list item }.

(** Everything the agent does not own: the two globals set at start-up,
    the libraries, the reasoning service and the browser.  Operations of
    the service and of the browser take the world and give it back,
    together with a value or an exception. *)
Record Env : Type :=
  { World : Type;
    ElementHandle : Type;
    (* globals *)
    GOAL : string;
    TARGET_URL : string;
    (* Python runtime and libraries *)
    str_upper : string -> string;
    py_format : pyval -> string;
    json_loads : string -> result pyval;
    bs4_parse : string -> soup;
    bs4_prettify : soup -> string;
    json_dump_to_file : list scrape_record -> World -> result unit * World;
    (* reasoning service: [generate_content_async(prompt)] then [.text] *)
    generate_content : prompt -> World -> result string * World;
    (* browser *)
    page_goto : string -> World -> result unit * World;
    page_content : World -> result string * World;
    page_url : World -> string;
    page_wait_for_selector :
      pyval -> wait_state -> Z -> World -> result unit * World;
    page_fill : pyval -> pyval -> World -> result unit * World;
    page_click : pyval -> World -> result unit * World;
    page_wait_for_load_state : string -> Z -> World -> result unit * World;
    page_query_selector_all :
      pyval -> World -> result (list ElementHandle) * World;
    el_inner_text : ElementHandle -> World -> result string * World;
    (* the element a handle stands for when a script is evaluated on it *)
    el_resolve : ElementHandle -> World -> result located * World;
    browser_close : World -> result unit * World }.

(** A line written to the console, named after the [print] that writes
    it and carrying the values it interpolates. *)
Inductive line : Type :=
| StartingAgent (target goal : string)
| StepBanner (number max_steps : nat)
| ErrorReadingPage (e : exn)
| PlannerThinking (url : string)
| GeminiApiError (e : exn)
| ThoughtLine (thought : pyval)
| ActionLine (action_upper : string) (selector : pyval)
| ScrapingFrom (selector : pyval)
| SelectorNotFound (selector : pyval)
| ScrapedCount (n : nat)
| ScrapeComplete
| GoalAchieved
| UnknownAction (action : pyval)
| ErrorLine (error_msg : string)
| DataSaved (filename : string)
| NoDataCollected.

(** [str(x)] as an f-string computes it. *)
Definition py_str (E : Env) (x : pyval) : string :=
  match x with
  | PStr s => s
  | PNone => "None"
  | PBool true => "True"
  | PBool false => "False"
  | other => py_format E other
  end.

Definition py_type_name (x : pyval) : string :=
  match x with
  | PNone => "NoneType"
  | PBool _ => "bool"
  | PInt _ => "int"
  | PFloat _ => "float"
  | PStr _ => "str"
  | PList _ => "list"
  | PDict _ => "dict"
  end.

Definition AttributeError (x : pyval) (attribute : string) : exn :=
  Exn "AttributeError"
      ("'" ++ py_type_name x ++ "' object has no attribute '" ++ attribute ++ "'").

(* ================================================================== *)
(** * Computations: state, exceptions, console *)
(* ================================================================== *)

(** What a computation of the agent can change: the world, the two lists
    of the [WebAgent] object, and the console. *)
Record state (E : Env) : Type :=
  State { world : World E;
          history : list string;
          collected_data : list scrape_record;
          console : list line }.
Arguments State {E} _ _ _ _.

(** A computation ends with a value or with an exception; either way the
    changes it made to the state stay. *)
Definition M (E : Env) (A : Type) : Type := state E -> result A * state E.

Section Computations.
Context {E : Env}.

Definition ret {A} (a : A) : M E A := fun s => (Ok a, s).

Definition bind {A B} (m : M E A) (k : A -> M E B) : M E B :=
  fun s =>
    match m s with
    | (Ok a, s') => k a s'
    | (Raised e, s') => (Raised e, s')
    end.

Definition raise {A} (e : exn) : M E A := fun s => (Raised e, s).

(** [try: m  except Exception as e: handler e] *)
Definition try_except {A} (m : M E A) (handler : exn -> M E A) : M E A :=
  fun s =>
    match m s with
    | (Ok a, s') => (Ok a, s')
    | (Raised e, s') => handler e s'
    end.

(** [try: m  finally: cleanup] *)
Definition try_finally {A} (m : M E A) (cleanup : M E unit) : M E A :=
  fun s =>
    match m s with
    | (r, s') =>
        match cleanup s' with
        | (Ok _, s'') => (r, s'')
        | (Raised e, s'') => (Raised e, s'')
        end
    end.

(** An operation of the outside world. *)
Definition await {A} (op : World E -> result A * World E) : M E A :=
  fun s =>
    match op (world s) with
    | (r, w') =>
        (r, State w' (history s) (collected_data s) (console s))
    end.

Definition of_result {A} (r : result A) : M E A := fun s => (r, s).

(** [print(...)]; writing to the console is taken to succeed. *)
Definition print (l : line) : M E unit :=
  fun s =>
    (Ok tt, State (world s) (history s) (collected_data s) (console s ++ [l])).

(** [self.history.append(entry)] *)
Definition history_append (entry : string) : M E unit :=
  fun s =>
    (Ok tt, State (world s) (history s ++ [entry]) (collected_data s) (console s)).

(** [self.collected_data.append(record)] *)
Definition collected_data_append (r : scrape_record) : M E unit :=
  fun s =>
    (Ok tt, State (world s) (history s) (collected_data s ++ [r]) (console s)).

Definition read {A} (f : state E -> A) : M E A := fun s => (Ok (f s), s).
End Computations.

Declare Scope agent_scope.
Delimit Scope agent_scope with agent.
Notation "x <- m ;; k" := (bind m (fun x => k))
  (at level 61, m at next level, right associativity) : agent_scope.
Notation "m ;; k" := (bind m (fun _ => k))
  (at level 61, right associativity) : agent_scope.
Local Open Scope agent_scope.

(* ================================================================== *)
(** * The planner *)
(* ================================================================== *)

Module AgentPlanner.
Section Planner.
Context {E : Env}.

(** The plan returned when the reasoning call fails. *)
Definition fallback_plan : pyval :=
  PDict [("action", PStr "finish"); ("thought", PStr "API call failed.")].

(** [get_next_action(current_url, dom_snippet, history)]:
<<
    try:
        response = await self.model.generate_content_async(prompt)
        plan = json.loads(response.text)
        return plan
    except Exception as e:
        print(...)
        return {"action": "finish", "thought": "API call failed."}
>> *)
Definition get_next_action
           (current_url dom_snippet : string) (history : list string)
  : M E pyval :=
  print (PlannerThinking current_url) ;;
  let prompt :=
    Prompt (GOAL E) history current_url
           (substring 0 (30 * 1000) dom_snippet) in
  try_except
    (response_text <- await (generate_content E prompt) ;;
     plan <- of_result (json_loads E response_text) ;;
     ret plan)
    (fun e =>
       print (GeminiApiError e) ;;
       ret fallback_plan).
End Planner.
End AgentPlanner.

(* ================================================================== *)
(** * The agent *)
(* ================================================================== *)

Definition MAX_STEPS : nat := 10.

Module WebAgent.

(** How an iteration of the main loop hands control back. *)
Inductive control : Type := Continue | Break.

(** How the main loop ends when it does not raise. *)
Inductive loop_exit : Type := Exhausted | Broke.

Section Agent.
Context {E : Env}.

(** [WebAgent.__init__]: empty history, nothing collected. *)
Definition init (w : World E) : state E := State w [] [] [].

(** [plan.get(key)]: only a dict has [get]. *)
Definition plan_get (plan : pyval) (key : string) : M E pyval :=
  match plan with
  | PDict entries => ret (dict_get entries key)
  | other => raise (AttributeError other "get")
  end.

(** [action.upper()]: only a string has [upper]. *)
Definition action_upper (action : pyval) : M E string :=
  match action with
  | PStr s => ret (str_upper E s)
  | other => raise (AttributeError other "upper")
  end.

Definition TIMEOUT_MS : Z := 10000.

(** The entries written to the history, as the f-strings build
    them. *)
Definition typed_entry (value selector : pyval) : string :=
  "Typed '" ++ py_str E value ++ "' into " ++ py_str E selector.

Definition clicked_entry (selector : pyval) : string :=
  "Clicked " ++ py_str E selector.

Definition scraped_entry (selector : pyval) : string :=
  "Scraped data from " ++ py_str E selector.

Definition zero_items_warning (selector : pyval) : string :=
  "WARNING: Scraped 0 items using " ++ py_str E selector
  ++ ". Try a different selector.".

Definition failure_message (action selector : pyval) (e : exn) : string :=
  "Failed to execute " ++ py_str E action ++ " on " ++ py_str E selector
  ++ ": " ++ exn_str e.

(** The [type] branch. *)
Definition do_type (selector value : pyval) : M E control :=
  await (page_wait_for_selector E selector Visible TIMEOUT_MS) ;;
  await (page_fill E selector value) ;;
  history_append (typed_entry value selector) ;;
  ret Continue.

(** The [click] branch; a failed wait for the network to go idle is
    swallowed. *)
Definition do_click (selector : pyval) : M E control :=
  await (page_wait_for_selector E selector Visible TIMEOUT_MS) ;;
  await (page_click E selector) ;;
  history_append (clicked_entry selector) ;;
  try_except
    (await (page_wait_for_load_state E "networkidle" 5000%Z))
    (fun _ => ret tt) ;;
  ret Continue.

(** [el.evaluate(script)] with the link-extraction script. *)
Definition evaluate_link (el : ElementHandle E) : M E pyval :=
  place <- await (el_resolve E el) ;;
  ret (py_of_js (extract_link place)).

(** [for el in elements: ...], with [data] as built so far. *)
Fixpoint scrape_elements
         (elements : list (ElementHandle E)) (data : list item)
  : M E (list item) :=
  match elements with
  | [] => ret data
  | el :: rest =>
      text <- await (el_inner_text E el) ;;
      link <- evaluate_link el ;;
      if str_truthy (strip text)
      then scrape_elements rest (data ++ [Item (strip text) link])
      else scrape_elements rest data
  end.

(** The [scrape] branch. *)
Definition do_scrape (step : nat) (selector value : pyval)
  : M E control :=
  print (ScrapingFrom selector) ;;
  try_except
    (await (page_wait_for_selector E selector Attached 5000%Z))
    (fun _ => print (SelectorNotFound selector)) ;;
  elements <- await (page_query_selector_all E selector) ;;
  data <- scrape_elements elements [] ;;
  collected_data_append (ScrapeRecord step data) ;;
  print (ScrapedCount (length data)) ;;
  history_append (scraped_entry selector) ;;
  if py_eq_str value "finish"
  then print ScrapeComplete ;; ret Break
  else
    (if (length data =? 0)%nat
     then history_append (zero_items_warning selector)
     else ret tt) ;;
    ret Continue.

(** The dispatch on [action], inside the [try] of step 3. *)
Definition dispatch (step : nat) (action selector value : pyval)
  : M E control :=
  if py_eq_str action "type" then do_type selector value
  else if py_eq_str action "click" then do_click selector
  else if py_eq_str action "scrape" then do_scrape step selector value
  else if py_eq_str action "finish" then print GoalAchieved ;; ret Break
  else print (UnknownAction action) ;; ret Continue.

(** Step 3, Act: the dispatch and its [except Exception as e]. *)
Definition act (step : nat) (action selector value : pyval)
  : M E control :=
  try_except
    (dispatch step action selector value)
    (fun e =>
       let error_msg := failure_message action selector e in
       print (ErrorLine error_msg) ;;
       history_append error_msg ;;
       ret Continue).

(** Step 1, Observe; [None] stands for the [break] of its handler.  The
    parser is taken to accept the markup: of the calls inside the [try],
    only [page.content()] can fail here. *)
Definition observe : M E (option (string * string)) :=
  try_except
    (content <- await (page_content E) ;;
     let clean_dom :=
       DOMSimplifier.simplify (bs4_parse E) (bs4_prettify E) content in
     current_url <- read (fun s => page_url E (world s)) ;;
     ret (Some (clean_dom, current_url)))
    (fun e => print (ErrorReadingPage e) ;; ret None).

(** Steps 1 and 2 of an iteration, up to the two lines printed before
    acting: the fields of the plan, or [None] when observing failed. *)
Definition observe_and_plan (step : nat)
  : M E (option (pyval * pyval * pyval)) :=
  print (StepBanner (step + 1) MAX_STEPS) ;;
  seen <- observe ;;
  match seen with
  | None => ret None
  | Some (clean_dom, current_url) =>
      past <- read (@history E) ;;
      plan <- AgentPlanner.get_next_action current_url clean_dom past ;;
      thought <- plan_get plan "thought" ;;
      action <- plan_get plan "action" ;;
      selector <- plan_get plan "selector" ;;
      value <- plan_get plan "value" ;;
      print (ThoughtLine thought) ;;
      shown <- action_upper action ;;
      print (ActionLine shown selector) ;;
      ret (Some (action, selector, value))
  end.

(** One iteration of [for step in range(MAX_STEPS)]. *)
Definition iteration (step : nat) : M E control :=
  planned <- observe_and_plan step ;;
  match planned with
  | None => ret Break
  | Some (action, selector, value) => act step action selector value
  end.

(** The [for] loop over the steps still to come. *)
Fixpoint for_steps (steps : list nat) : M E loop_exit :=
  match steps with
  | [] => ret Exhausted
  | step :: rest =>
      c <- iteration step ;;
      match c with
      | Continue => for_steps rest
      | Break => ret Broke
      end
  end.

(** [for step in range(MAX_STEPS): ...] *)
Definition main_loop : M E loop_exit := for_steps (seq 0 MAX_STEPS).

(** [save_results] *)
Definition save_results : M E unit :=
  data <- read (@collected_data E) ;;
  match data with
  | [] => print NoDataCollected
  | _ :: _ =>
      await (json_dump_to_file E data) ;;
      print (DataSaved "gemini_agent_results.json")
  end.

(** [run], from the first [print] on: go to the target, loop, and in
    any case close the browser and save. *)
Definition run : M E loop_exit :=
  print (StartingAgent (TARGET_URL E) (GOAL E)) ;;
  try_finally
    (await (page_goto E (TARGET_URL E)) ;;
     main_loop)
    (await (browser_close E) ;;
     save_results).
End Agent.

Arguments typed_entry E value selector : clear implicits.
Arguments clicked_entry E selector : clear implicits.
Arguments scraped_entry E selector : clear implicits.
Arguments zero_items_warning E selector : clear implicits.
Arguments failure_message E action selector e : clear implicits.
End WebAgent.

(* ================================================================== *)
(** * A scripted world *)
(* ================================================================== *)

(** A small closed environment on which the agent can be run: a fixed
    page, and a reasoning service that reads its answers from a script. *)
Module Script.

(** An element handle is the element's inner text and its place in the
    document. *)
Definition handle : Type := (string * located)%type.

(** The world: the answers still to come, and the interactions the page
    has received. *)
Record scripted : Type :=
  Scripted { answers : list (result string);
             interactions : list string }.

Definition anchor (url : string) (inner : list element) : element :=
  Element "A" (JSString url) inner.

Definition plain (tag : string) (inner : list element) : element :=
  Element tag JSUndefined inner.

(** Three result rows: a heading inside a link, a blank cell, and a
    card with a link somewhere below it. *)
Definition results : list handle :=
  [ ("  First result ",
     Located (plain "H3" [])
             [anchor "https://example.org/1" []; plain "DIV" []]);
    ("   ", Located (plain "TD" []) [plain "TR" []]);
    ("Third",
     Located (plain "DIV" [plain "P" [anchor "https://example.org/3" []];
                           anchor "https://example.org/other" []])
             [plain "BODY" []]) ].

(** The selectors the page knows, with the elements they match. *)
Definition selectors : list (string * list handle) :=
  [ ("#search", [("", Located (plain "INPUT" []) [])]);
    ("#submit", [("Go", Located (plain "BUTTON" []) [])]);
    (".result", results);
    (".missing", []) ].

Fixpoint lookup {A} (key : string) (table : list (string * A)) : option A :=
  match table with
  | [] => None
  | (k, v) :: rest => if String.eqb k key then Some v else lookup key rest
  end.

Definition matched (selector : pyval) : option (list handle) :=
  match selector with
  | PStr s => lookup s selectors
  | _ => None
  end.

Definition TimeoutError : exn := Exn "TimeoutError" "Timeout exceeded.".
Definition SelectorError : exn := Exn "Error" "Unexpected token in selector".

Definition wait_for (selector : pyval) (w : scripted) : result unit * scripted :=
  match matched selector with
  | Some (_ :: _) => (Ok tt, w)
  | Some [] => (Raised TimeoutError, w)
  | None => (Raised SelectorError, w)
  end.

Definition interact (what : string) (selector : pyval) (w : scripted)
  : result unit * scripted :=
  match selector, matched selector with
  | PStr s, Some (_ :: _) =>
      (Ok tt, Scripted (answers w) (interactions w ++ [(what ++ " " ++ s)%string]))
  | _, Some [] => (Raised TimeoutError, w)
  | _, _ => (Raised SelectorError, w)
  end.

Definition query (selector : pyval) (w : scripted)
  : result (list handle) * scripted :=
  match matched selector with
  | Some found => (Ok found, w)
  | None => (Raised SelectorError, w)
  end.

(** The service pops the next answer of the script. *)
Definition answer (_ : prompt) (w : scripted) : result string * scripted :=
  match answers w with
  | [] => (Raised (Exn "DeadlineExceeded" "504 Deadline Exceeded"), w)
  | a :: rest => (a, Scripted rest (interactions w))
  end.

Definition plan_of (thought action : pyval) (selector value : pyval) : pyval :=
  PDict [("thought", thought); ("action", action);
         ("selector", selector); ("value", value)].

(** The answers the decoder understands, by name, with the plan each
    stands for; any other text is not JSON. *)
Definition decodable : list (string * pyval) :=
  [ ("type X", plan_of (PStr "t") (PStr "type") (PStr "#search") (PStr "X"));
    ("click submit", plan_of (PStr "c") (PStr "click") (PStr "#submit") PNone);
    ("scrape results, finish",
     plan_of (PStr "s") (PStr "scrape") (PStr ".result") (PStr "finish"));
    ("scrape results",
     plan_of (PStr "s") (PStr "scrape") (PStr ".result") (PStr "all rows"));
    ("scrape missing",
     plan_of (PStr "s") (PStr "scrape") (PStr ".missing") (PStr "all rows"));
    ("scrape missing, finish",
     plan_of (PStr "s") (PStr "scrape") (PStr ".missing") (PStr "finish"));
    ("scrape bad selector, finish",
     plan_of (PStr "s") (PStr "scrape") (PStr "li:contains(x)") (PStr "finish"));
    ("hover", plan_of (PStr "h") (PStr "hover") (PStr "#submit") PNone);
    ("no action", PDict [("thought", PStr "nothing to do")]);
    ("null action", plan_of (PStr "n") PNone PNone PNone);
    ("a list", PList [PInt 1; PInt 2]) ].

Definition decode (s : string) : result pyval :=
  match lookup s decodable with
  | Some plan => Ok plan
  | None => Raised (Exn "JSONDecodeError" "Expecting value: line 1 column 1 (char 0)")
  end.

Definition ascii_upper (c : ascii) : ascii :=
  let n := nat_of_ascii c in
  if ((97 <=? n) && (n <=? 122))%nat then ascii_of_nat (n - 32) else c.

Fixpoint upper (s : string) : string :=
  match s with
  | EmptyString => EmptyString
  | String c rest => String (ascii_upper c) (upper rest)
  end.

(** The page source, parsed; the tags are numbered in document order. *)
Definition page_tree : soup :=
  [ NavigableString KDoctype "html";
    Tag 0 "html" [("lang", AttrStr "en")]
        [ Tag 1 "head" [] [Tag 2 "title" [] [NavigableString KText "Shop"]];
          Tag 3 "body" [("class", AttrList ["home"]); ("onload", AttrStr "init()")]
              [ Tag 4 "script" [("src", AttrStr "app.js")] [];
                Tag 5 "input" [("id", AttrStr "search"); ("style", AttrStr "color:red");
                               ("placeholder", AttrStr "Search")] [];
                Tag 6 "svg" [] [Tag 7 "path" [("d", AttrStr "M0 0")] []];
                Tag 8 "a" [("href", AttrStr "/next"); ("data-track", AttrStr "1")]
                    [NavigableString KText "Next"] ] ] ].

(** The environment, given the reasoning service. *)
Definition env_answering
           (service : prompt -> scripted -> result string * scripted) : Env :=
  {| World := scripted;
     ElementHandle := handle;
     GOAL := "search X";
     TARGET_URL := "https://example.org/";
     str_upper := upper;
     py_format := fun _ => "<object>";
     json_loads := decode;
     bs4_parse := fun _ => page_tree;
     bs4_prettify := fun _ => "<html>...</html>";
     json_dump_to_file := fun _ w => (Ok tt, w);
     generate_content := service;
     page_goto := fun _ w => (Ok tt, w);
     page_content := fun w => (Ok "<!DOCTYPE html><html>...</html>", w);
     page_url := fun _ => "https://example.org/";
     page_wait_for_selector := fun selector _ _ => wait_for selector;
     page_fill := fun selector _ => interact "fill" selector;
     page_click := interact "click";
     page_wait_for_load_state := fun _ _ w => (Ok tt, w);
     page_query_selector_all := query;
     el_inner_text := fun el w => (Ok (fst el), w);
     el_resolve := fun el w => (Ok (snd el), w);
     browser_close := fun w => (Ok tt, w) |}.

(** The service follows the script. *)
Definition env : Env := env_answering answer.

(** The service asks for the same click for ever. *)
Definition stubborn : Env :=
  env_answering (fun _ w => (Ok "click submit", w)).

(** A fresh agent facing the given answers. *)
Definition start (script : list (result string)) : state env :=
  WebAgent.init (E := env) (Scripted script []).

Definition says (s : string) : result string := Ok s.
Definition fails : result string :=
  Raised (Exn "ServiceUnavailable" "503 The model is overloaded.").

End Script.

(* ================================================================== *)
(** * Notions used in the statements *)
(* ================================================================== *)

(** A relation between the state before and after a computation is a
    frame when it is a preorder and holds across any change of the world
    alone. *)
Class Frame {E : Env} (R : state E -> state E -> Prop) : Prop :=
  { frame_refl : forall s, R s s;
    frame_trans : forall a b c, R a b -> R b c -> R a c;
    frame_world :
      forall s w, R s (State w (history s) (collected_data s) (console s)) }.

(** [keeps R m]: whatever [m] returns or raises, it takes a state to one
    related by [R]. *)
Definition keeps {E : Env} (R : state E -> state E -> Prop) {A} (m : M E A)
  : Prop :=
  forall s, R s (snd (m s)).

(** The agent's two lists are untouched. *)
Definition same_lists {E : Env} (s s' : state E) : Prop :=
  history s' = history s /\ collected_data s' = collected_data s.

(** The lists and the console are untouched: only the world moved. *)
Definition only_world {E : Env} (s s' : state E) : Prop :=
  history s' = history s /\ collected_data s' = collected_data s
  /\ console s' = console s.

(** The step numbers announced on the console, in order. *)
Fixpoint banners (c : list line) : list nat :=
  match c with
  | [] => []
  | StepBanner number _ :: rest => number :: banners rest
  | _ :: rest => banners rest
  end.

Definition is_banner (l : line) : bool :=
  match l with StepBanner _ _ => true | _ => false end.

(** No new step is announced. *)
Definition same_banners {E : Env} (s s' : state E) : Prop :=
  banners (console s') = banners (console s).

(** An item as the data model wants it: its text is not empty and is
    its own trimmed form. *)
Definition item_ok (it : item) : Prop :=
  text it <> "" /\ strip (text it) = text it.

Definition record_ok (r : scrape_record) : Prop := Forall item_ok (rec_data r).

(** The collected data only grow, and by records of such items. *)
Definition gathers {E : Env} (s s' : state E) : Prop :=
  exists gathered,
    collected_data s' = collected_data s ++ gathered
    /\ Forall record_ok gathered.

Section AgentNotions.
Context {E : Env}.

(** The reasoning call fails in world [w]: the service raises, or
    what it answers is not JSON. *)
Definition planning_fails
           (url dom : string) (past : list string) (w : World E) : Prop :=
  match
    generate_content E
      (Prompt (GOAL E) past url (substring 0 (30 * 1000) dom)) w
  with
  | (Raised _, _) => True
  | (Ok response_text, _) => exists e, json_loads E response_text = Raised e
  end.

(** What [query_selector_all] gives the scrape branch when that branch
    starts in world [w]: the query runs after the wait for the
    selector. *)
Definition matched_elements (selector : pyval) (w : World E)
  : result (list (ElementHandle E)) :=
  fst (page_query_selector_all E selector
         (snd (page_wait_for_selector E selector Attached 5000%Z w))).

End AgentNotions.


(* ================================================================== *)
(** * The rest of the program, and notions for what is proved of it *)
(* ================================================================== *)

Unset Implicit Arguments.

(** ** The simplifier as one pass *)

Module DOMSimplifierSpec.
Import DOMSimplifier.

(** The two loops as one pass over the tree: a tag with a removed name
    goes with all it holds; any other tag stays, with its allowed
    attributes in their order and its contents treated the same way;
    strings stay as they are. *)
Fixpoint pruned (n : node) : list node :=
  match n with
  | Tag ident name attrs contents =>
      if mem_string name removed_tags then []
      else [Tag ident name (keep_allowed attrs) (flat_map pruned contents)]
  | NavigableString _ _ => [n]
  end.

(** No two tags of the document are the same object. *)
Definition distinct_tags (s : soup) : Prop :=
  NoDup (map tag_ident (all_tags s)).

Definition listed (ident : nat) (idents : list nat) : bool :=
  existsb (Nat.eqb ident) idents.

(** The tree without the tags of the listed identities. *)
Fixpoint without (idents : list nat) (n : node) : list node :=
  match n with
  | Tag ident name attrs contents =>
      if listed ident idents then []
      else [Tag ident name attrs (flat_map (without idents) contents)]
  | NavigableString _ _ => [n]
  end.

(** The tree with the attributes of the listed tags filtered. *)
Fixpoint filtered (idents : list nat) (n : node) : node :=
  match n with
  | Tag ident name attrs contents =>
      Tag ident name
          (if listed ident idents then keep_allowed attrs else attrs)
          (map (filtered idents) contents)
  | NavigableString _ _ => n
  end.

(** A tag of the output, [t], is the tag [t0] of the input with only its
    allowed attributes left. *)
Definition trimmed_from (t t0 : tag) : Prop :=
  tag_ident t = tag_ident t0 /\ tag_name t = tag_name t0
  /\ tag_attrs t = keep_allowed (tag_attrs t0).
End DOMSimplifierSpec.

(** ** Notions for the scrape *)

Section ScrapeNotions.
Context {E : Env}.

(** The elements of the page can be read without the page changing, and
    always give the same text and the same place in the document. *)
Definition static_reads
           (text_of : ElementHandle E -> string)
           (place_of : ElementHandle E -> located) : Prop :=
  forall el w,
    el_inner_text E el w = (Ok (text_of el), w)
    /\ el_resolve E el w = (Ok (place_of el), w).

(** What one element contributes to the data: nothing when its trimmed
    text is empty, else its trimmed text and its link. *)
Definition item_of
           (text_of : ElementHandle E -> string)
           (place_of : ElementHandle E -> located)
           (el : ElementHandle E) : list item :=
  if str_truthy (strip (text_of el))
  then [Item (strip (text_of el)) (py_of_js (extract_link (place_of el)))]
  else [].
End ScrapeNotions.

(** * Start-up *)
Module Startup.

(** What the start-up code makes of the line typed for the URL:
<<
    target_url = input(...).strip()
    if not target_url.startswith("http"):
        target_url = "https://" + target_url
>> *)
Definition target_url_of (typed : string) : string :=
  let target_url := strip typed in
  if prefix "http" target_url then target_url else "https://" ++ target_url.

(** [user_goal = input(...).strip()] *)
Definition user_goal_of (typed : string) : string := strip typed.

(** [needle in hay], for strings: [needle] occurs somewhere in [hay]. *)
Fixpoint contains (needle hay : string) : bool :=
  prefix needle hay
  || match hay with
     | EmptyString => false
     | String _ rest => contains needle rest
     end.

Definition GEMINI_API_KEY : string := "".

(** The guard at the head of [AgentPlanner.__init__]:
<<
    if "YOUR_GEMINI" in api_key:
        raise ValueError("Please replace ...")
>> *)
Definition check_api_key (api_key : string) : result unit :=
  if contains "YOUR_GEMINI" api_key
  then Raised (Exn "ValueError"
                   "Please replace 'YOUR_GEMINI_API_KEY_HERE' with a real key from aistudio.google.com")
  else Ok tt.
End Startup.

(** * A scripted world with outages *)
Module Outage.
Import Script.

Definition NetworkError : exn := Exn "Error" "net::ERR_NAME_NOT_RESOLVED".
Definition TargetClosed : exn :=
  Exn "TargetClosedError" "Target page, context or browser has been closed".

Definition failing {A} (fails : bool) (e : exn)
           (op : scripted -> result A * scripted) (w : scripted)
  : result A * scripted :=
  if fails then (Raised e, w) else op w.

(** The scripted environment, with the operations that are to fail. *)
Definition env_failing (goto_fails content_fails idle_fails close_fails : bool)
  : Env :=
  {| World := scripted;
     ElementHandle := handle;
     GOAL := "search X";
     TARGET_URL := "https://example.org/";
     str_upper := upper;
     py_format := fun _ => "<object>";
     json_loads := decode;
     bs4_parse := fun _ => page_tree;
     bs4_prettify := fun _ => "<html>...</html>";
     json_dump_to_file := fun _ w => (Ok tt, w);
     generate_content := answer;
     page_goto := fun _ => failing goto_fails NetworkError (fun w => (Ok tt, w));
     page_content :=
       failing content_fails TargetClosed
               (fun w => (Ok "<!DOCTYPE html><html>...</html>", w));
     page_url := fun _ => "https://example.org/";
     page_wait_for_selector := fun selector _ _ => wait_for selector;
     page_fill := fun selector _ => interact "fill" selector;
     page_click := interact "click";
     page_wait_for_load_state :=
       fun _ _ => failing idle_fails TimeoutError (fun w => (Ok tt, w));
     page_query_selector_all := query;
     el_inner_text := fun el w => (Ok (fst el), w);
     el_resolve := fun el w => (Ok (snd el), w);
     browser_close := failing close_fails TargetClosed (fun w => (Ok tt, w)) |}.

Definition offline : Env := env_failing true false false false.
Definition unreadable : Env := env_failing false true false false.
Definition never_idle : Env := env_failing false false true false.
Definition stuck_browser : Env := env_failing false false false true.

(** A string of [n] letters x. *)
Fixpoint filler (n : nat) : string :=
  match n with
  | O => EmptyString
  | S m => String "x" (filler m)
  end.
End Outage.

(* ================================================================== *)
(** * Facts about strings *)
(* ================================================================== *)

Unset Implicit Arguments.

Lemma mem_string_In x l : mem_string x l = true <-> In x l.
Proof.
  unfold mem_string. rewrite existsb_exists. split.
  - intros [y [Hy Heq]]. apply String.eqb_eq in Heq. now subst.
  - intros H. exists x. split; [assumption | apply String.eqb_refl].
Qed.

Lemma str_truthy_nonempty s : str_truthy s = true <-> s <> "".
Proof.
  destruct s; simpl; split; intro H; congruence.
Qed.

(** What is left of a string stripped on the left does not start with
    whitespace. *)
Lemma lstrip_head s c rest : lstrip s = String c rest -> isspace c = false.
Proof.
  induction s as [|d s IH]; simpl; [discriminate|].
  destruct (isspace d) eqn:Hd; [exact IH|].
  intros H. injection H as -> _. exact Hd.
Qed.

Lemma rstrip_idempotent s : rstrip (rstrip s) = rstrip s.
Proof.
  induction s as [|c s IH]; simpl; [reflexivity|].
  destruct (rstrip s) as [|k kept] eqn:Hs.
  - destruct (isspace c) eqn:Hc; simpl; [reflexivity|]. now rewrite Hc.
  - change (rstrip (String c (String k kept))) with
      (match rstrip (String k kept) with
       | EmptyString => if isspace c then EmptyString else String c EmptyString
       | String a b => String c (String a b)
       end).
    now rewrite IH.
Qed.

(** Stripping on the right keeps a first character that is not
    whitespace. *)
Lemma rstrip_keeps_head c rest :
  isspace c = false -> exists kept, rstrip (String c rest) = String c kept.
Proof.
  intros Hc. simpl. destruct (rstrip rest) as [|k kept].
  - rewrite Hc. now exists EmptyString.
  - now exists (String k kept).
Qed.

Lemma strip_idempotent s : strip (strip s) = strip s.
Proof.
  unfold strip. destruct (lstrip s) as [|c rest] eqn:Hl; [reflexivity|].
  pose proof (lstrip_head s c rest Hl) as Hc.
  destruct (rstrip_keeps_head c rest Hc) as [kept Hk]. rewrite Hk.
  assert (Hfix : lstrip (String c kept) = String c kept)
    by (simpl; now rewrite Hc).
  rewrite Hfix, <- Hk. apply rstrip_idempotent.
Qed.

Example strip_examples :
  strip "  First result " = "First result"
  /\ strip "   " = ""
  /\ strip "a  b" = "a  b"
  /\ strip (String (ascii_of_nat 9) (String (ascii_of_nat 160) "x")) = "x".
Proof. repeat split. Qed.

(* ================================================================== *)
(** * Facts about the simplifier *)
(* ================================================================== *)

Module DOMSimplifierFacts.
Import DOMSimplifier.

(** A wanted tag is a tag with a wanted name. *)
Lemma find_all_from_wanted wanted t n :
  In t (find_all_from wanted n)
  <-> In t (find_all_from any_name n) /\ wanted (tag_name t) = true.
Proof.
  induction n as [ident name attrs contents IH | kind s] using node_forall_ind;
    cbn [find_all_from any_name]; [|cbn; tauto].
  rewrite !in_app_iff, !in_flat_map.
  assert (Hbelow : (exists c, In c contents /\ In t (find_all_from wanted c))
                   <-> (exists c, In c contents /\ In t (find_all_from any_name c))
                       /\ wanted (tag_name t) = true).
  { rewrite Forall_forall in IH. split.
    - intros (c & Hc & Ht). apply IH in Ht; [|exact Hc]. split; [|tauto].
      exists c. tauto.
    - intros [(c & Hc & Ht) Hw]. exists c. split; [exact Hc|].
      apply IH; auto. }
  rewrite Hbelow. destruct (wanted name) eqn:Hname; cbn [In]; split.
  - intros [[<- | []] | H]; cbn; tauto.
  - intros [[[<- | []] | H] Hw]; tauto.
  - intros [[] | H]; tauto.
  - intros [[[<- | []] | H] Hw]; [cbn in Hw; congruence | tauto].
Qed.

Lemma find_all_wanted wanted t s :
  In t (find_all wanted s) <-> In t (all_tags s) /\ wanted (tag_name t) = true.
Proof.
  unfold all_tags, find_all. rewrite !in_flat_map. split.
  - intros (n & Hn & Ht). apply find_all_from_wanted in Ht.
    split; [exists n|]; tauto.
  - intros [(n & Hn & Ht) Hw]. exists n. split; [exact Hn|].
    apply find_all_from_wanted. tauto.
Qed.

(** Decomposing takes tags away, the named one among them, and changes
    none. *)
Lemma decompose_from_tags element t n :
  In t (flat_map (find_all_from any_name) (decompose_from element n)) ->
  In t (find_all_from any_name n) /\ tag_ident t <> element.
Proof.
  induction n as [ident name attrs contents IH | kind s] using node_forall_ind;
    cbn [decompose_from]; [|intros []].
  destruct (ident =? element)%nat eqn:Hid; [intros []|].
  apply Nat.eqb_neq in Hid.
  cbn [flat_map find_all_from any_name]. rewrite app_nil_r.
  cbn [app In]. intros [<- | Ht]; [cbn; auto|].
  apply in_flat_map in Ht. destruct Ht as (c' & Hc' & Ht).
  apply in_flat_map in Hc'. destruct Hc' as (c & Hc & Hc').
  rewrite Forall_forall in IH.
  destruct (IH c Hc) as [Hin Hneq].
  { apply in_flat_map. eauto. }
  split; [|exact Hneq]. right. apply in_flat_map. eauto.
Qed.

Lemma decompose_tags element t s :
  In t (all_tags (decompose element s)) ->
  In t (all_tags s) /\ tag_ident t <> element.
Proof.
  unfold all_tags, find_all, decompose. intros Ht.
  apply in_flat_map in Ht. destruct Ht as (n' & Hn' & Ht).
  apply in_flat_map in Hn'. destruct Hn' as (n & Hn & Hn').
  destruct (decompose_from_tags element t n) as [Hin Hneq].
  { apply in_flat_map. eauto. }
  split; [|exact Hneq]. apply in_flat_map. eauto.
Qed.

Lemma decompose_each_tags elements :
  forall t s,
    In t (all_tags
            (fold_left (fun tree element => decompose (tag_ident element) tree)
                       elements s)) ->
    In t (all_tags s) /\ ~ In (tag_ident t) (map tag_ident elements).
Proof.
  induction elements as [|element rest IH]; intros t s; cbn [fold_left map In].
  - tauto.
  - intros Ht. apply IH in Ht. destruct Ht as [Ht Hrest].
    apply decompose_tags in Ht. destruct Ht as [Ht Hneq].
    split; [exact Ht|]. intros [Heq | Hin]; [congruence | tauto].
Qed.

(** After the first loop no tag bears a removed name. *)
Lemma remove_heavy_tags_names s :
  Forall name_kept (all_tags (remove_heavy_tags s)).
Proof.
  apply Forall_forall. intros t Ht. unfold remove_heavy_tags in Ht.
  apply decompose_each_tags in Ht. destruct Ht as [Ht Hnot].
  unfold name_kept. rewrite <- mem_string_In. intros Hname. apply Hnot.
  apply in_map. apply find_all_wanted. auto.
Qed.

Lemma keep_allowed_allowed attrs : attrs_allowed (keep_allowed attrs).
Proof.
  unfold attrs_allowed, keep_allowed. apply Forall_forall. intros kv Hin.
  apply filter_In in Hin. now apply mem_string_In.
Qed.

Lemma update_attrs_in_tags element t n :
  In t (find_all_from any_name (update_attrs_in element keep_allowed n)) ->
  exists t0, In t0 (find_all_from any_name n) /\ updated_from element t t0.
Proof.
  induction n as [ident name attrs contents IH | kind s] using node_forall_ind;
    cbn [update_attrs_in find_all_from any_name]; [|intros []].
  cbn [app In]. intros [<- | Ht].
  - exists (TagOf ident name attrs). split; [now left|]. repeat split.
  - apply in_flat_map in Ht. destruct Ht as (c' & Hc' & Ht).
    apply in_map_iff in Hc'. destruct Hc' as (c & <- & Hc).
    rewrite Forall_forall in IH. destruct (IH c Hc Ht) as (t0 & Ht0 & Hup).
    exists t0. split; [|exact Hup]. right. apply in_flat_map. eauto.
Qed.

Lemma update_attrs_tags element t s :
  In t (all_tags (update_attrs element keep_allowed s)) ->
  exists t0, In t0 (all_tags s) /\ updated_from element t t0.
Proof.
  unfold all_tags, find_all, update_attrs. intros Ht.
  apply in_flat_map in Ht. destruct Ht as (n' & Hn' & Ht).
  apply in_map_iff in Hn'. destruct Hn' as (n & <- & Hn).
  destruct (update_attrs_in_tags element t n Ht) as (t0 & Ht0 & Hup).
  exists t0. split; [|exact Hup]. apply in_flat_map. eauto.
Qed.

(** After the updates for the listed tags, every tag still has the
    identity and the name of a tag of the tree before; its attributes are
    allowed when its identity was listed, or when they were allowed
    before. *)
Lemma update_each_tags tags :
  forall t s,
    In t (all_tags
            (fold_left (fun tree t' => update_attrs (tag_ident t') keep_allowed tree)
                       tags s)) ->
    exists t0,
      In t0 (all_tags s)
      /\ tag_ident t = tag_ident t0 /\ tag_name t = tag_name t0
      /\ (In (tag_ident t0) (map tag_ident tags) \/ attrs_allowed (tag_attrs t0)
          -> attrs_allowed (tag_attrs t)).
Proof.
  induction tags as [|t' rest IH]; intros t s; cbn [fold_left map In].
  - intros Ht. exists t. repeat split; auto. tauto.
  - intros Ht. apply IH in Ht. destruct Ht as (t1 & Ht1 & Hid & Hname & Hattrs).
    apply update_attrs_tags in Ht1.
    destruct Ht1 as (t0 & Ht0 & Hid0 & Hname0 & Hattrs0).
    exists t0. split; [exact Ht0|]. split; [congruence|]. split; [congruence|].
    intros Hcase. apply Hattrs. rewrite Hattrs0, Hid0.
    destruct (tag_ident t0 =? tag_ident t')%nat eqn:Heq.
    + right. apply keep_allowed_allowed.
    + apply Nat.eqb_neq in Heq. destruct Hcase as [[Habs | Hin] | Hok]; auto.
      congruence.
Qed.

Lemma simplify_soup_clean s : Forall clean_tag (all_tags (simplify_soup s)).
Proof.
  apply Forall_forall. intros t Ht.
  unfold simplify_soup, simplify_attributes in Ht.
  apply update_each_tags in Ht.
  destruct Ht as (t0 & Ht0 & Hid & Hname & Hattrs).
  pose proof (remove_heavy_tags_names s) as Hnames.
  rewrite Forall_forall in Hnames. split.
  - unfold name_kept. rewrite Hname. now apply Hnames.
  - apply Hattrs. left. now apply in_map.
Qed.
(** C8.  For every markup string, what [simplify] returns is the
    serialisation of a tree in which no tag, at any depth, is named
    script, style, svg, path, head, meta, noscript or footer, and in
    which every attribute of every tag is one of id, name, class, href,
    type, placeholder, aria-label and role. *)
Theorem simplify_output_clean
        (bs4_parse : string -> soup) (bs4_prettify : soup -> string)
        (html_content : string) :
  simplify bs4_parse bs4_prettify html_content
  = bs4_prettify (simplify_soup (bs4_parse html_content))
  /\ Forall clean_tag (all_tags (simplify_soup (bs4_parse html_content))).
Proof.
  split; [reflexivity | apply simplify_soup_clean].
Qed.

(** On the scripted page: the head, the script and the drawing go, and
    so do [lang], [onload], [style] and [data-track].  The path is listed
    with the drawing that holds it and is gone by the time its turn
    comes. *)
Example simplify_page_tree :
  map tag_ident (find_all (fun name => mem_string name removed_tags)
                          Script.page_tree)
  = [1; 4; 6; 7]
  /\ simplify_soup Script.page_tree
     = [ NavigableString KDoctype "html";
         Tag 0 "html" []
             [ Tag 3 "body" [("class", AttrList ["home"])]
                   [ Tag 5 "input" [("id", AttrStr "search");
                                    ("placeholder", AttrStr "Search")] [];
                     Tag 8 "a" [("href", AttrStr "/next")]
                         [NavigableString KText "Next"] ] ] ].
Proof. split; reflexivity. Qed.

End DOMSimplifierFacts.

(* ================================================================== *)
(** * Facts about link extraction *)
(* ================================================================== *)

Lemma tagName_A_matches e : String.eqb (tagName e) "A" = true -> matches_a e = true.
Proof. unfold matches_a. now intros ->. Qed.

(** The script follows the resolution order: own href, else nearest
    enclosing link, else first descendant link in document order, else
    null. *)
Lemma extract_link_order (el : located) : extract_link el = link_by_order el.
Proof.
  unfold extract_link, link_by_order, closest_a, querySelector_a.
  destruct (String.eqb (tagName (target el)) "A") eqn:Hself.
  - now rewrite (tagName_A_matches _ Hself).
  - simpl. destruct (matches_a (target el)); reflexivity.
Qed.

(** The four cases, read off the scripted page and two more elements. *)
Example link_of_anchor :
  extract_link (Located (Script.anchor "u" [Script.anchor "inner" []])
                        [Script.anchor "outer" []])
  = JSString "u".
Proof. reflexivity. Qed.

Example link_of_enclosed :
  map (fun h => extract_link (snd h)) Script.results
  = [JSString "https://example.org/1"; JSNull; JSString "https://example.org/3"].
Proof. reflexivity. Qed.

(* ================================================================== *)
(** * Reasoning about computations *)
(* ================================================================== *)

Section FrameRules.
Context {E : Env} (R : state E -> state E -> Prop) `{!Frame R}.

Lemma keeps_ret {A} (a : A) : keeps R (ret a).
Proof. intros s. apply frame_refl. Qed.

Lemma keeps_raise {A} e : keeps R (raise (A := A) e).
Proof. intros s. apply frame_refl. Qed.

Lemma keeps_of_result {A} (r : result A) : keeps R (of_result r).
Proof. intros s. apply frame_refl. Qed.

Lemma keeps_read {A} (f : state E -> A) : keeps R (read f).
Proof. intros s. apply frame_refl. Qed.

Lemma keeps_await {A} (op : World E -> result A * World E) :
  keeps R (await op).
Proof.
  intros s. unfold await. destruct (op (world s)) as [r w]. apply frame_world.
Qed.

Lemma keeps_bind {A B} (m : M E A) (k : A -> M E B) :
  keeps R m -> (forall a, keeps R (k a)) -> keeps R (bind m k).
Proof.
  intros Hm Hk s. unfold bind. specialize (Hm s).
  destruct (m s) as [[a | e] s1]; simpl in *; [|exact Hm].
  eapply frame_trans; [exact Hm | apply Hk].
Qed.

Lemma keeps_try_except {A} (m : M E A) (handler : exn -> M E A) :
  keeps R m -> (forall e, keeps R (handler e)) -> keeps R (try_except m handler).
Proof.
  intros Hm Hh s. unfold try_except. specialize (Hm s).
  destruct (m s) as [[a | e] s1]; simpl in *; [exact Hm|].
  eapply frame_trans; [exact Hm | apply Hh].
Qed.

Lemma keeps_try_finally {A} (m : M E A) (cleanup : M E unit) :
  keeps R m -> keeps R cleanup -> keeps R (try_finally m cleanup).
Proof.
  intros Hm Hc s. unfold try_finally. specialize (Hm s).
  destruct (m s) as [r s1]. specialize (Hc s1).
  destruct (cleanup s1) as [[u | e] s2]; simpl in *;
    eapply frame_trans; eassumption.
Qed.
End FrameRules.

#[global] Instance same_lists_frame {E : Env} : Frame (@same_lists E).
Proof.
  split; unfold same_lists; simpl.
  - auto.
  - intros a b c [? ?] [? ?]. split; congruence.
  - auto.
Qed.

#[global] Instance only_world_frame {E : Env} : Frame (@only_world E).
Proof.
  split; unfold only_world; simpl.
  - auto.
  - intros a b c (? & ? & ?) (? & ? & ?). repeat split; congruence.
  - auto.
Qed.

#[global] Instance same_banners_frame {E : Env} : Frame (@same_banners E).
Proof.
  split; unfold same_banners; simpl.
  - auto.
  - intros a b c ? ?. congruence.
  - auto.
Qed.

Lemma banners_app c d : banners (c ++ d) = banners c ++ banners d.
Proof.
  induction c as [|l c IH]; simpl; [reflexivity|].
  destruct l; simpl; now rewrite ?IH.
Qed.

Section Leaves.
Context {E : Env}.

Lemma print_same_lists l : keeps (@same_lists E) (print l).
Proof. intros s. split; reflexivity. Qed.

Lemma print_same_banners l :
  is_banner l = false -> keeps (@same_banners E) (print l).
Proof.
  intros Hl s. unfold same_banners. simpl. rewrite banners_app.
  destruct l; try discriminate; simpl; apply app_nil_r.
Qed.

Lemma history_append_same_banners entry :
  keeps (@same_banners E) (history_append entry).
Proof. intros s. reflexivity. Qed.

Lemma collected_data_append_same_banners r :
  keeps (@same_banners E) (collected_data_append r).
Proof. intros s. reflexivity. Qed.
End Leaves.

Create HintDb frames.
#[global] Hint Resolve keeps_ret keeps_raise keeps_of_result keeps_read
  keeps_await print_same_lists history_append_same_banners
  collected_data_append_same_banners : frames.
#[global] Hint Extern 1 (keeps same_banners (print _)) =>
  apply print_same_banners; reflexivity : frames.

#[global] Hint Extern 0 (Frame _) => exact _ : frames.

Ltac frame_premises :=
  try exact _;
  try match goal with |- forall _, _ => intros ? end.

(** Walks down a computation along its binds, handlers and case
    distinctions, leaving the leaves to the hints. *)
Ltac frame :=
  repeat first
    [ solve [auto with frames]
    | apply keeps_bind; frame_premises
    | apply keeps_try_except; frame_premises
    | apply keeps_try_finally; frame_premises
    | match goal with
      | |- keeps _ (if ?b then _ else _) => destruct b
      | |- keeps _ (match ?x with _ => _ end) => destruct x
      | |- keeps _ (let _ := _ in _) => cbv zeta
      end ].

(* ================================================================== *)
(** * Facts about the agent *)
(* ================================================================== *)

Module WebAgentFacts.
Import AgentPlanner WebAgent.

Section Frames.
Context {E : Env}.

Lemma get_next_action_same_lists url dom past :
  keeps (@same_lists E) (get_next_action url dom past).
Proof. unfold get_next_action. frame. Qed.

Lemma get_next_action_same_banners url dom past :
  keeps (@same_banners E) (get_next_action url dom past).
Proof. unfold get_next_action. frame. Qed.

Lemma observe_same_lists : keeps (@same_lists E) observe.
Proof. unfold observe. frame. Qed.

Lemma observe_same_banners : keeps (@same_banners E) observe.
Proof. unfold observe. frame. Qed.

Lemma plan_get_keeps (R : state E -> state E -> Prop) `{!Frame R} plan key : keeps R (plan_get plan key).
Proof. unfold plan_get. frame. Qed.

Lemma action_upper_keeps (R : state E -> state E -> Prop) `{!Frame R} action :
  keeps R (action_upper action).
Proof. unfold action_upper. frame. Qed.

Hint Resolve get_next_action_same_lists get_next_action_same_banners
  observe_same_lists observe_same_banners plan_get_keeps
  action_upper_keeps : frames.

Lemma observe_and_plan_same_lists step :
  keeps (@same_lists E) (observe_and_plan step).
Proof. unfold observe_and_plan. frame. Qed.

Lemma scrape_elements_only_world elements :
  forall data, keeps (@only_world E) (scrape_elements elements data).
Proof.
  induction elements as [|el rest IH]; intros data; cbn [scrape_elements].
  - frame.
  - unfold evaluate_link. frame; apply IH.
Qed.

Lemma only_world_same_banners {A} (m : M E A) :
  keeps (@only_world E) m -> keeps (@same_banners E) m.
Proof.
  intros H s. destruct (H s) as (_ & _ & Hc). unfold same_banners.
  now rewrite Hc.
Qed.

Lemma act_same_banners step action selector value :
  keeps (@same_banners E) (act step action selector value).
Proof.
  unfold act, dispatch, do_type, do_click, do_scrape. frame.
  apply only_world_same_banners, scrape_elements_only_world.
Qed.
End Frames.

#[export] Hint Resolve get_next_action_same_lists
  get_next_action_same_banners observe_same_lists observe_same_banners
  plan_get_keeps action_upper_keeps : frames.

Section Loop.
Context {E : Env}.

(** Each iteration announces its own step number, once. *)
Lemma observe_and_plan_banner step (s : state E) :
  banners (console (snd (observe_and_plan step s)))
  = banners (console s) ++ [step + 1].
Proof.
  unfold observe_and_plan.
  match goal with
  | |- context [bind (print ?b) ?k] =>
      assert (Hrest : keeps (@same_banners E) (k tt))
        by (cbv beta; frame; auto with frames);
      change (bind (print b) k s) with (k tt (snd (print b s)))
  end.
  rewrite Hrest. cbn [print snd console]. now rewrite banners_app.
Qed.

Lemma iteration_banner step (s : state E) :
  banners (console (snd (iteration step s)))
  = banners (console s) ++ [step + 1].
Proof.
  pose proof (observe_and_plan_banner step s) as Hb.
  unfold iteration, bind.
  destruct (observe_and_plan step s) as [[[[[action selector] value]|]|e] s1];
    cbn [snd] in *; try exact Hb.
  now rewrite act_same_banners.
Qed.

(** The loop, one step unrolled. *)
Lemma for_steps_cons step rest (s : state E) :
  for_steps (step :: rest) s
  = match iteration step s with
    | (Ok Continue, s1) => for_steps rest s1
    | (Ok Break, s1) => (Ok Broke, s1)
    | (Raised e, s1) => (Raised e, s1)
    end.
Proof.
  cbn [for_steps]. unfold bind at 1.
  destruct (iteration step s) as [[[|]|e] s1]; reflexivity.
Qed.

(** The loop runs an initial segment of the steps it is given, and
    all of them when it ends by exhaustion. *)
Lemma for_steps_banners steps :
  forall s : state E,
  exists k,
    k <= length steps
    /\ banners (console (snd (for_steps steps s)))
       = banners (console s) ++ map (fun step => step + 1) (firstn k steps)
    /\ (fst (for_steps steps s) = Ok Exhausted -> k = length steps).
Proof.
  induction steps as [|step rest IH]; intros s.
  - exists 0. cbn. rewrite app_nil_r. auto.
  - rewrite for_steps_cons.
    pose proof (iteration_banner step s) as Hb.
    destruct (iteration step s) as [[[|]|e] s1]; cbn [snd] in Hb.
    + destruct (IH s1) as (k & Hk & Hbs & Hex).
      exists (S k). cbn [length firstn map]. split; [lia|]. split.
      * rewrite Hbs, Hb, <- app_assoc. reflexivity.
      * intros H. now rewrite (Hex H).
    + exists 1. cbn [length firstn map fst snd]. split; [lia|]. split.
      * now destruct rest.
      * discriminate.
    + exists 1. cbn [length firstn map fst snd]. split; [lia|]. split.
      * now destruct rest.
      * discriminate.
Qed.

Lemma firstn_seq k : forall a n, firstn k (seq a n) = seq a (Nat.min k n).
Proof.
  induction k as [|k IH]; intros a [|n]; cbn; try reflexivity.
  now rewrite IH.
Qed.

Lemma announced_range k : map (fun step => step + 1) (seq 0 k) = seq 1 k.
Proof.
  rewrite <- seq_shift. apply map_ext. intros a. lia.
Qed.

(** C1.  Whatever the page and the planner do, the main loop returns,
    having begun the steps 0 .. k-1 for some k <= MAX_STEPS, in that
    order and once each: the numbers step + 1 it announces are
    1 .. k, none above MAX_STEPS.  It runs all MAX_STEPS steps when it
    ends by exhausting the range. *)
Theorem main_loop_within_max_steps (s : state E) :
  exists k,
    k <= MAX_STEPS
    /\ banners (console (snd (main_loop s))) = banners (console s) ++ seq 1 k
    /\ Forall (fun number => 1 <= number <= MAX_STEPS) (seq 1 k)
    /\ match fst (main_loop s) with
       | Ok Exhausted => k = MAX_STEPS
       | _ => True
       end.
Proof.
  unfold main_loop.
  destruct (for_steps_banners (seq 0 MAX_STEPS) s) as (k & Hk & Hb & Hex).
  rewrite length_seq in Hk, Hex.
  exists k. split; [exact Hk|]. split; [|split].
  - rewrite Hb, firstn_seq, Nat.min_l by exact Hk. now rewrite announced_range.
  - apply Forall_forall. intros n Hn. apply in_seq in Hn. lia.
  - destruct (fst (for_steps (seq 0 MAX_STEPS) s)) as [[|]|]; auto.
Qed.
End Loop.

Ltac unfold_m :=
  unfold bind, try_except, await, print, history_append,
    collected_data_append, read, ret, raise, of_result in *.

(** Case analysis on the next operation whose outcome decides how the
    computation goes on. *)
Ltac next_outcome :=
  match goal with
  | |- context [match ?op (world ?s) with _ => _ end] =>
      destruct (op (world s)) as [[?|?] ?] eqn:?
  | |- context [match ?op ?w with _ => _ end] =>
      destruct (op w) as [[?|?] ?] eqn:?
  end; cbn [world history collected_data console fst snd] in *.

Section Act.
Context {E : Env}.

Lemma scrape_elements_items elements :
  forall data (s : state E),
    Forall item_ok data ->
    match fst (scrape_elements elements data s) with
    | Ok found => Forall item_ok found
    | Raised _ => True
    end.
Proof.
  induction elements as [|el rest IH]; intros data s Hdata;
    cbn [scrape_elements].
  - exact Hdata.
  - unfold evaluate_link. unfold_m.
    destruct (el_inner_text E el (world s)) as [[t|e] w1]; cbn; [|exact I].
    destruct (el_resolve E el w1) as [[place|e] w2]; cbn; [|exact I].
    destruct (str_truthy (strip t)) eqn:Ht; apply IH; [|exact Hdata].
    apply Forall_app. split; [exact Hdata|]. constructor; [|constructor].
    split; cbn [text].
    + now apply str_truthy_nonempty.
    + apply strip_idempotent.
Qed.

(** What the scrape branch does: nothing to the two lists when it
    raises; otherwise one record, one outcome entry, and either the
    break or the warning for an empty record. *)
Lemma do_scrape_effect step selector value (s : state E) :
  match do_scrape step selector value s with
  | (Raised _, s') => same_lists s s'
  | (Ok c, s') =>
      exists data,
        Forall item_ok data
        /\ collected_data s' = collected_data s ++ [ScrapeRecord step data]
        /\ (if py_eq_str value "finish"
            then c = Break
                 /\ history s' = history s ++ [scraped_entry E selector]
            else c = Continue
                 /\ history s'
                    = history s
                      ++ scraped_entry E selector
                         :: (if (length data =? 0)%nat
                             then [zero_items_warning E selector]
                             else []))
  end.
Proof.
  unfold do_scrape.
  pose proof (fun els st => scrape_elements_items els [] st (Forall_nil _))
    as Hitems.
  pose proof (fun els => scrape_elements_only_world (E := E) els [])
    as Hframe.
  unfold_m. cbn [world history collected_data console].
  destruct (page_wait_for_selector E selector Attached 5000 (world s))
    as [[[]|e] w1]; cbn [world history collected_data console].
  all: match goal with
       | |- context [page_query_selector_all ?env ?sel ?w] =>
           destruct (page_query_selector_all env sel w) as [[els|e'] w2]
       end; cbn [world history collected_data console];
    [|split; reflexivity].
  all: match goal with
       | |- context [scrape_elements ?found [] ?st] =>
           specialize (Hitems found st);
           destruct (Hframe found st) as (Hh & Hd & _);
           destruct (scrape_elements found [] st) as [[data|e'] s3]
       end; cbn [fst snd world history collected_data console] in *;
    [|split; assumption].
  all: destruct (py_eq_str value "finish");
    [|destruct (length data =? 0)%nat eqn:Hlen];
    cbn [fst snd world history collected_data console];
    exists data; rewrite ?Hlen, ?Hh, ?Hd, <- ?app_assoc; auto.
Qed.

Lemma do_type_effect selector value (s : state E) :
  match do_type selector value s with
  | (Raised _, s') => same_lists s s'
  | (Ok c, s') =>
      c = Continue
      /\ history s' = history s ++ [typed_entry E value selector]
      /\ collected_data s' = collected_data s
  end.
Proof.
  unfold do_type. unfold_m. cbn [world history collected_data console].
  repeat (next_outcome; [|split; reflexivity]).
  auto.
Qed.

Lemma do_click_effect selector (s : state E) :
  match do_click selector s with
  | (Raised _, s') => same_lists s s'
  | (Ok c, s') =>
      c = Continue
      /\ history s' = history s ++ [clicked_entry E selector]
      /\ collected_data s' = collected_data s
  end.
Proof.
  unfold do_click. unfold_m. cbn [world history collected_data console].
  do 2 (next_outcome; [|split; reflexivity]).
  next_outcome; auto.
Qed.

(** What step 3 can do to the two lists.  It never raises.  The
    history gains at most one entry, or the two entries of an empty
    scrape; the collected data gain at most one record, of well-formed
    items. *)
Lemma act_effect step action selector value (s : state E) :
  exists c s',
    act step action selector value s = (Ok c, s')
    /\ exists added gathered,
        history s' = history s ++ added
        /\ collected_data s' = collected_data s ++ gathered
        /\ Forall record_ok gathered
        /\ (length added <= 1
            \/ (added = [scraped_entry E selector; zero_items_warning E selector]
                /\ gathered = [ScrapeRecord step []])).
Proof.
  unfold act, dispatch, try_except.
  destruct (py_eq_str action "type");
    [|destruct (py_eq_str action "click");
      [|destruct (py_eq_str action "scrape");
        [|destruct (py_eq_str action "finish")]]].
  - pose proof (do_type_effect selector value s) as H.
    destruct (do_type selector value s) as [[c|e] s1].
    + destruct H as (-> & Hh & Hd). exists Continue, s1. split; [reflexivity|].
      exists [typed_entry E value selector], []. rewrite app_nil_r.
      repeat split; auto.
    + destruct H as [Hh Hd]. unfold_m. cbn. do 2 eexists. split; [reflexivity|].
      exists [failure_message E action selector e], []. cbn.
      rewrite Hh, Hd, app_nil_r. repeat split; auto.
  - pose proof (do_click_effect selector s) as H.
    destruct (do_click selector s) as [[c|e] s1].
    + destruct H as (-> & Hh & Hd). exists Continue, s1. split; [reflexivity|].
      exists [clicked_entry E selector], []. rewrite app_nil_r.
      repeat split; auto.
    + destruct H as [Hh Hd]. unfold_m. cbn. do 2 eexists. split; [reflexivity|].
      exists [failure_message E action selector e], []. cbn.
      rewrite Hh, Hd, app_nil_r. repeat split; auto.
  - pose proof (do_scrape_effect step selector value s) as H.
    destruct (do_scrape step selector value s) as [[c|e] s1].
    + destruct H as (data & Hitems & Hd & H). exists c, s1.
      split; [reflexivity|].
      destruct (py_eq_str value "finish").
      * destruct H as [_ Hh].
        exists [scraped_entry E selector], [ScrapeRecord step data].
        repeat split; auto.
      * destruct H as [_ Hh].
        destruct (length data =? 0)%nat eqn:Hlen.
        -- apply Nat.eqb_eq, length_zero_iff_nil in Hlen. subst data.
           exists [scraped_entry E selector; zero_items_warning E selector],
             [ScrapeRecord step []].
           repeat split; auto.
        -- exists [scraped_entry E selector], [ScrapeRecord step data].
           repeat split; auto.
    + destruct H as [Hh Hd]. unfold_m. cbn. do 2 eexists. split; [reflexivity|].
      exists [failure_message E action selector e], []. cbn.
      rewrite Hh, Hd, app_nil_r. repeat split; auto.
  - unfold_m. cbn. do 2 eexists. split; [reflexivity|].
    exists [], []. cbn. rewrite !app_nil_r. repeat split; auto.
  - unfold_m. cbn. do 2 eexists. split; [reflexivity|].
    exists [], []. cbn. rewrite !app_nil_r. repeat split; auto.
Qed.

Lemma iteration_planned step action selector value (s s1 : state E) :
  observe_and_plan step s = (Ok (Some (action, selector, value)), s1) ->
  iteration step s = act step action selector value s1.
Proof. intros H. unfold iteration, bind. now rewrite H. Qed.

(** The same for a whole iteration, which may also raise or break
    before acting, leaving the lists alone. *)
Lemma iteration_effect step (s : state E) :
  exists added gathered,
    history (snd (iteration step s)) = history s ++ added
    /\ collected_data (snd (iteration step s)) = collected_data s ++ gathered
    /\ Forall record_ok gathered
    /\ (length added <= 1
        \/ exists selector,
            added = [scraped_entry E selector; zero_items_warning E selector]
            /\ gathered = [ScrapeRecord step []]).
Proof.
  destruct (observe_and_plan_same_lists step s) as [Hh Hd].
  unfold iteration, bind.
  destruct (observe_and_plan step s) as [[[[[action selector] value]|]|e] s1];
    cbn [snd] in *.
  - destruct (act_effect step action selector value s1)
      as (c & s2 & -> & added & gathered & Ha & Hg & Hok & Hcases).
    exists added, gathered. cbn [snd]. rewrite Ha, Hg, Hh, Hd.
    repeat split; auto. destruct Hcases as [?|[? ?]]; eauto.
  - exists [], []. cbn. rewrite !app_nil_r. repeat split; auto.
  - exists [], []. cbn. rewrite !app_nil_r. repeat split; auto.
Qed.
End Act.

Section Planning.
Context {E : Env}.

Lemma get_next_action_fallback url dom past (s : state E) :
  planning_fails url dom past (world s) ->
  exists w' e,
    get_next_action url dom past s
    = (Ok fallback_plan,
       State w' (history s) (collected_data s)
             (console s ++ [PlannerThinking url; GeminiApiError e])).
Proof.
  unfold planning_fails, get_next_action. unfold_m.
  cbn [world history collected_data console].
  destruct (generate_content E _ (world s)) as [[response_text|e] w'];
    cbn [world history collected_data console].
  - intros [e He]. rewrite He. exists w', e.
    cbn [world history collected_data console]. now rewrite <- app_assoc.
  - intros _. exists w', e. now rewrite <- app_assoc.
Qed.

(** When the page is readable and the reasoning call fails, the first two
    phases hand step 3 a finish action with no selector and no value. *)
Lemma observe_and_plan_fallback step (s : state E) content w1 :
  let dom := DOMSimplifier.simplify (bs4_parse E) (bs4_prettify E) content in
  page_content E (world s) = (Ok content, w1) ->
  planning_fails (page_url E w1) dom (history s) w1 ->
  exists s1,
    observe_and_plan step s = (Ok (Some (PStr "finish", PNone, PNone)), s1).
Proof.
  intros dom Hcontent Hfail.
  unfold observe_and_plan, observe. unfold_m.
  cbn [world history collected_data console].
  rewrite Hcontent. cbn [world history collected_data console]. fold dom.
  match goal with
  | |- context [get_next_action ?u ?d ?p ?st] =>
      destruct (get_next_action_fallback u d p st Hfail) as (w' & e & ->)
  end.
  eexists. reflexivity.
Qed.

(** Step 3 on a finish action: the loop is left, nothing else changes
    but the console. *)
Lemma act_finish step selector value (s : state E) :
  act step (PStr "finish") selector value s
  = (Ok Break,
     State (world s) (history s) (collected_data s)
           (console s ++ [GoalAchieved])).
Proof. reflexivity. Qed.

(** C2.  Suppose the page has been read at some step and the
    reasoning call then fails, because the service raises or because
    its answer does not parse as JSON.  Then [get_next_action] returns
    (it does not raise) exactly the plan with action finish and
    thought API call failed, and the loop ends at that very step,
    with no later step begun and the history and the collected data
    as they were. *)
Theorem planning_failure_finishes
        step rest (s : state E) content (w1 : World E) :
  let dom := DOMSimplifier.simplify (bs4_parse E) (bs4_prettify E) content in
  let url := page_url E w1 in
  page_content E (world s) = (Ok content, w1) ->
  planning_fails url dom (history s) w1 ->
  (forall lists printed,
      fst (get_next_action url dom (history s)
             (State w1 (history s) lists printed))
      = Ok fallback_plan)
  /\ fallback_plan
     = PDict [("action", PStr "finish"); ("thought", PStr "API call failed.")]
  /\ exists s',
      for_steps (step :: rest) s = (Ok Broke, s')
      /\ history s' = history s
      /\ collected_data s' = collected_data s
      /\ banners (console s') = banners (console s) ++ [step + 1].
Proof.
  intros dom url Hcontent Hfail. split; [|split; [reflexivity|]].
  - intros lists printed.
    destruct (get_next_action_fallback url dom (history s)
                (State w1 (history s) lists printed) Hfail)
      as (w' & e & ->).
    reflexivity.
  - destruct (observe_and_plan_fallback step s content w1 Hcontent Hfail)
      as (s1 & Hplan).
    destruct (observe_and_plan_same_lists step s) as [Hh Hd].
    pose proof (observe_and_plan_banner step s) as Hb.
    rewrite Hplan in Hh, Hd, Hb. cbn [snd] in Hh, Hd, Hb.
    rewrite for_steps_cons, (iteration_planned _ _ _ _ _ _ Hplan), act_finish.
    eexists. split; [reflexivity|].
    cbn [history collected_data console]. rewrite banners_app, Hb.
    cbn [banners]. rewrite app_nil_r. auto.
Qed.
End Planning.

Section Scraping.
Context {E : Env}.

Lemma act_scrape step selector value (s : state E) :
  act step (PStr "scrape") selector value s
  = match do_scrape step selector value s with
    | (Ok c, s') => (Ok c, s')
    | (Raised e, s') =>
        (Ok Continue,
         State (world s')
               (history s' ++ [failure_message E (PStr "scrape") selector e])
               (collected_data s')
               (console s'
                ++ [ErrorLine (failure_message E (PStr "scrape") selector e)]))
    end.
Proof.
  unfold act, try_except. cbn [dispatch py_eq_str String.eqb Ascii.eqb Bool.eqb].
  destruct (do_scrape step selector value s) as [[c|e] s']; reflexivity.
Qed.

(** A scrape whose selector matches nothing: an empty record, the
    outcome entry, and then either the break or the warning. *)
Lemma do_scrape_nothing step selector value (s : state E) :
  matched_elements selector (world s) = Ok [] ->
  exists s',
    do_scrape step selector value s
    = (Ok (if py_eq_str value "finish" then Break else Continue), s')
    /\ collected_data s' = collected_data s ++ [ScrapeRecord step []]
    /\ history s'
       = history s
         ++ scraped_entry E selector
            :: (if py_eq_str value "finish"
                then [] else [zero_items_warning E selector]).
Proof.
  unfold matched_elements, do_scrape. unfold_m.
  cbn [world history collected_data console].
  destruct (page_wait_for_selector E selector Attached 5000 (world s))
    as [[[]|e] w1]; cbn [fst snd world history collected_data console].
  all: destruct (page_query_selector_all E selector w1) as [r w2];
    cbn [fst]; intros ->; cbn [scrape_elements]; unfold_m;
    destruct (py_eq_str value "finish");
    cbn [length Nat.eqb world history collected_data console];
    eexists; (split; [reflexivity|]);
    cbn [world history collected_data console];
    rewrite <- ?app_assoc; auto.
Qed.

(** C5, amended.  When a step's plan is a scrape whose value is not
    the finish signal and whose selector matches no element, the step
    appends a record with an empty items list to the collected data,
    appends to the history the scrape outcome and then the warning
    that asks for a different selector, and the loop goes on with the
    next step. *)
Theorem empty_scrape_warns_and_continues
        step rest (s s1 : state E) selector value :
  observe_and_plan step s = (Ok (Some (PStr "scrape", selector, value)), s1) ->
  py_eq_str value "finish" = false ->
  matched_elements selector (world s1) = Ok [] ->
  exists s2,
    iteration step s = (Ok Continue, s2)
    /\ collected_data s2 = collected_data s ++ [ScrapeRecord step []]
    /\ history s2
       = history s ++ [scraped_entry E selector; zero_items_warning E selector]
    /\ for_steps (step :: rest) s = for_steps rest s2.
Proof.
  intros Hplan Hvalue Hnone.
  destruct (observe_and_plan_same_lists step s) as [Hh Hd].
  rewrite Hplan in Hh, Hd. cbn [snd] in Hh, Hd.
  destruct (do_scrape_nothing step selector value s1 Hnone)
    as (s2 & Hrun & Hdata & Hhist).
  rewrite Hvalue in Hrun, Hhist.
  assert (Hiter : iteration step s = (Ok Continue, s2)).
  { rewrite (iteration_planned _ _ _ _ _ _ Hplan), act_scrape.
    now rewrite Hrun. }
  exists s2. rewrite for_steps_cons, Hiter, Hdata, Hhist, Hh, Hd. auto.
Qed.

(** C7.  When a step's plan is a scrape whose value is the finish
    signal and whose selector matches no element, the loop ends at
    that step, having appended the record with an empty items list
    and the scrape outcome entry, and nothing else: the zero-item
    warning is not appended. *)
Theorem empty_scrape_with_finish_skips_warning
        step rest (s s1 : state E) selector :
  observe_and_plan step s
  = (Ok (Some (PStr "scrape", selector, PStr "finish")), s1) ->
  matched_elements selector (world s1) = Ok [] ->
  exists s2,
    for_steps (step :: rest) s = (Ok Broke, s2)
    /\ collected_data s2 = collected_data s ++ [ScrapeRecord step []]
    /\ history s2 = history s ++ [scraped_entry E selector].
Proof.
  intros Hplan Hnone.
  destruct (observe_and_plan_same_lists step s) as [Hh Hd].
  rewrite Hplan in Hh, Hd. cbn [snd] in Hh, Hd.
  destruct (do_scrape_nothing step selector (PStr "finish") s1 Hnone)
    as (s2 & Hrun & Hdata & Hhist).
  change (py_eq_str (PStr "finish") "finish") with true in Hrun, Hhist.
  exists s2.
  rewrite for_steps_cons, (iteration_planned _ _ _ _ _ _ Hplan), act_scrape.
  rewrite Hrun, Hdata, Hhist, Hh, Hd. auto.
Qed.

(** The scrape branch when the query answers and every matched element
    can be read: the record for this step holds exactly the items that
    the loop over the elements returned. *)
Lemma do_scrape_reads
      step selector value (s : state E) elements w2 data s3 :
  let waited :=
    page_wait_for_selector E selector Attached 5000%Z (world s) in
  let printed :=
    console s
    ++ ScrapingFrom selector
       :: match fst waited with
          | Ok _ => []
          | Raised _ => [SelectorNotFound selector]
          end in
  page_query_selector_all E selector (snd waited) = (Ok elements, w2) ->
  scrape_elements elements []
                  (State w2 (history s) (collected_data s) printed)
  = (Ok data, s3) ->
  do_scrape step selector value s
  = (if py_eq_str value "finish"
     then
       (Ok Break,
        State (world s3) (history s3 ++ [scraped_entry E selector])
              (collected_data s3 ++ [ScrapeRecord step data])
              (console s3 ++ [ScrapedCount (length data); ScrapeComplete]))
     else
       (Ok Continue,
        State (world s3)
              (history s3
               ++ scraped_entry E selector
                  :: (if (length data =? 0)%nat
                      then [zero_items_warning E selector] else []))
              (collected_data s3 ++ [ScrapeRecord step data])
              (console s3 ++ [ScrapedCount (length data)]))).
Proof.
  intros waited printed Hquery Hread. subst waited printed.
  unfold do_scrape. unfold_m. cbn [world history collected_data console].
  destruct (page_wait_for_selector E selector Attached 5000 (world s))
    as [[[]|e] w1]; cbn [fst snd world history collected_data console] in *;
    rewrite Hquery; cbn [world history collected_data console];
    rewrite <- ?app_assoc; cbn [app]; rewrite Hread;
    cbn [world history collected_data console];
    destruct (py_eq_str value "finish");
    cbn [world history collected_data console];
    rewrite <- ?app_assoc; cbn [app]; try reflexivity;
    destruct (length data =? 0)%nat;
    cbn [world history collected_data console];
    rewrite <- ?app_assoc; reflexivity.
Qed.

(** C6, amended.  When a step's plan is a scrape whose value is the
    finish signal and the scrape raises no error (the query answers
    with the matched elements and the reading of every one of them
    succeeds), the loop ends at that step, and when it does the record
    holding exactly the items read from the matched elements is the
    last entry of the collected data and the scrape outcome the last
    entry of the history. *)
Theorem scrape_with_finish_ends_loop
        step rest (s s1 : state E) selector elements w2 data s3 :
  let waited :=
    page_wait_for_selector E selector Attached 5000%Z (world s1) in
  let printed :=
    console s1
    ++ ScrapingFrom selector
       :: match fst waited with
          | Ok _ => []
          | Raised _ => [SelectorNotFound selector]
          end in
  observe_and_plan step s
  = (Ok (Some (PStr "scrape", selector, PStr "finish")), s1) ->
  page_query_selector_all E selector (snd waited) = (Ok elements, w2) ->
  scrape_elements elements []
                  (State w2 (history s1) (collected_data s1) printed)
  = (Ok data, s3) ->
  for_steps (step :: rest) s
  = (Ok Broke,
     State (world s3) (history s ++ [scraped_entry E selector])
           (collected_data s ++ [ScrapeRecord step data])
           (console s3 ++ [ScrapedCount (length data); ScrapeComplete])).
Proof.
  intros waited printed Hplan Hquery Hread.
  destruct (observe_and_plan_same_lists step s) as [Hh Hd].
  rewrite Hplan in Hh, Hd. cbn [snd] in Hh, Hd.
  destruct (scrape_elements_only_world elements []
              (State w2 (history s1) (collected_data s1) printed))
    as (Hh3 & Hd3 & _).
  rewrite Hread in Hh3, Hd3. cbn [snd history collected_data] in Hh3, Hd3.
  rewrite for_steps_cons, (iteration_planned _ _ _ _ _ _ Hplan), act_scrape.
  rewrite (do_scrape_reads step selector (PStr "finish") s1 elements w2 data s3
             Hquery Hread).
  change (py_eq_str (PStr "finish") "finish") with true. cbv iota.
  now rewrite Hh3, Hd3, Hh, Hd.
Qed.

(** X22.  When the scrape does raise, the finish signal is not looked at:
    nothing is recorded, the failure goes to the history and the loop
    goes on. *)
Lemma failed_scrape_continues step rest (s s1 : state E) selector value e :
  observe_and_plan step s = (Ok (Some (PStr "scrape", selector, value)), s1) ->
  fst (do_scrape step selector value s1) = Raised e ->
  exists s2,
    iteration step s = (Ok Continue, s2)
    /\ collected_data s2 = collected_data s
    /\ history s2 = history s ++ [failure_message E (PStr "scrape") selector e]
    /\ for_steps (step :: rest) s = for_steps rest s2.
Proof.
  intros Hplan Hraise.
  destruct (observe_and_plan_same_lists step s) as [Hh Hd].
  rewrite Hplan in Hh, Hd. cbn [snd] in Hh, Hd.
  pose proof (do_scrape_effect step selector value s1) as Heff.
  rewrite for_steps_cons, (iteration_planned _ _ _ _ _ _ Hplan), act_scrape.
  destruct (do_scrape step selector value s1) as [[c|e'] s2];
    cbn [fst] in Hraise; [discriminate|].
  injection Hraise as ->. destruct Heff as [Hh2 Hd2].
  eexists. split; [reflexivity|]. cbn [history collected_data].
  rewrite Hh2, Hd2, Hh, Hd. auto.
Qed.
End Scraping.

Section Steps.
Context {E : Env}.

(** C4, amended.  In every step the history only grows at its end,
    and by at most two entries: by at most one, except when a scrape
    without the finish signal recorded an empty items list, which
    appends the scrape outcome and then the zero-item warning. *)
Theorem history_growth_per_step step (s : state E) :
  exists added,
    history (snd (iteration step s)) = history s ++ added
    /\ length added <= 2
    /\ (length added <= 1
        \/ exists selector,
            added = [scraped_entry E selector; zero_items_warning E selector]
            /\ collected_data (snd (iteration step s))
               = collected_data s ++ [ScrapeRecord step []]).
Proof.
  destruct (iteration_effect step s)
    as (added & gathered & Hh & Hd & _ & Hcases).
  exists added. split; [exact Hh|].
  destruct Hcases as [Hone | (selector & -> & ->)].
  - split; [lia | now left].
  - split; [cbn; lia | right; eauto].
Qed.

Lemma for_steps_gathers steps :
  forall s : state E,
  exists gathered,
    collected_data (snd (for_steps steps s)) = collected_data s ++ gathered
    /\ Forall record_ok gathered.
Proof.
  induction steps as [|step rest IH]; intros s.
  - exists []. cbn. now rewrite app_nil_r.
  - rewrite for_steps_cons.
    destruct (iteration_effect step s) as (_ & here & _ & Hd & Hok & _).
    destruct (iteration step s) as [[[|]|e] s1]; cbn [snd] in *.
    + destruct (IH s1) as (later & Hlater & Hok').
      exists (here ++ later). rewrite Hlater, Hd, app_assoc.
      split; [reflexivity | now apply Forall_app].
    + now exists here.
    + now exists here.
Qed.

(** C9.  Whatever the page returns for whatever selectors, every item
    of every record that a run of the main loop appends to the
    collected data has a text that is not empty and is its own
    trimmed form: no recorded item has an empty trimmed text. *)
Theorem scraped_items_have_text (s : state E) :
  exists gathered,
    collected_data (snd (main_loop s)) = collected_data s ++ gathered
    /\ Forall (fun r => Forall item_ok (rec_data r)) gathered
    /\ Forall (fun r => Forall (fun it => strip (text it) <> "") (rec_data r))
              gathered.
Proof.
  destruct (for_steps_gathers (seq 0 MAX_STEPS) s) as (gathered & Hd & Hok).
  exists gathered. split; [exact Hd|]. split; [exact Hok|].
  eapply Forall_impl; [|exact Hok]. intros r Hr.
  eapply Forall_impl; [|exact Hr]. intros it [Hne Htrim]. congruence.
Qed.

#[local] Instance gathers_frame : Frame (@gathers E).
Proof.
  split; unfold gathers.
  - intros s. exists []. now rewrite app_nil_r.
  - intros a b c (g1 & H1 & Hok1) (g2 & H2 & Hok2). exists (g1 ++ g2).
    rewrite H2, H1, app_assoc. split; [reflexivity | now apply Forall_app].
  - intros s w. exists []. cbn. now rewrite app_nil_r.
Qed.

Lemma print_gathers l : keeps (@gathers E) (print l).
Proof. intros s. exists []. cbn. now rewrite app_nil_r. Qed.

(** A whole run, finalisation included, from a fresh agent: every record
    collected holds well-formed items only. *)
Lemma run_collects_ok (w : World E) :
  Forall record_ok (collected_data (snd (run (init w)))).
Proof.
  assert (Hloop : keeps (@gathers E) main_loop)
    by (intros s; apply for_steps_gathers).
  assert (Hrun : keeps (@gathers E) run)
    by (unfold run, save_results; frame; apply print_gathers).
  destruct (Hrun (init w)) as (gathered & -> & Hok). exact Hok.
Qed.

(** An action that is a string but none of the four names is reported
    and skipped: the console gains one line, nothing else changes and
    the loop goes on. *)
Lemma unknown_action_skipped step a selector value (s : state E) :
  ~ In a ["type"; "click"; "scrape"; "finish"] ->
  act step (PStr a) selector value s
  = (Ok Continue,
     State (world s) (history s) (collected_data s)
           (console s ++ [UnknownAction (PStr a)])).
Proof.
  intros Hnot. unfold act, dispatch, try_except. cbn [py_eq_str].
  assert (Hneq : forall name, In name ["type"; "click"; "scrape"; "finish"] ->
                              String.eqb a name = false).
  { intros name Hin. apply String.eqb_neq. intros ->. now apply Hnot. }
  rewrite !Hneq by (cbn; auto 6). reflexivity.
Qed.

(** What the first two phases give when the page is readable and the
    service answers with a JSON object: the three fields of the plan
    when its action is a string, an AttributeError otherwise. *)
Lemma observe_and_plan_object
      step (s : state E) content w1 response_text w2 entries :
  let dom := DOMSimplifier.simplify (bs4_parse E) (bs4_prettify E) content in
  page_content E (world s) = (Ok content, w1) ->
  generate_content E
    (Prompt (GOAL E) (history s) (page_url E w1)
            (substring 0 (30 * 1000) dom)) w1
  = (Ok response_text, w2) ->
  json_loads E response_text = Ok (PDict entries) ->
  exists s1,
    observe_and_plan step s
    = (match dict_get entries "action" with
       | PStr a =>
           Ok (Some (PStr a, dict_get entries "selector",
                     dict_get entries "value"))
       | other => Raised (AttributeError other "upper")
       end, s1).
Proof.
  intros dom Hcontent Hanswer Hjson.
  unfold observe_and_plan, observe, get_next_action. unfold_m.
  cbn [world history collected_data console].
  rewrite Hcontent. cbn [world history collected_data console].
  fold dom. rewrite Hanswer. cbn [world history collected_data console].
  rewrite Hjson. cbn [plan_get]. unfold_m.
  cbn [world history collected_data console].
  destruct (dict_get entries "action"); cbn [action_upper]; unfold_m;
    cbn [world history collected_data console];
    eexists; reflexivity.
Qed.

(** A plan whose action is missing, null or anything but a string
    stops the run with an AttributeError before step 3 is reached;
    the lists are as they were. *)
Lemma non_string_action_raises
      step rest (s : state E) content w1 response_text w2 entries :
  let dom := DOMSimplifier.simplify (bs4_parse E) (bs4_prettify E) content in
  page_content E (world s) = (Ok content, w1) ->
  generate_content E
    (Prompt (GOAL E) (history s) (page_url E w1)
            (substring 0 (30 * 1000) dom)) w1
  = (Ok response_text, w2) ->
  json_loads E response_text = Ok (PDict entries) ->
  (forall a, dict_get entries "action" <> PStr a) ->
  exists s',
    for_steps (step :: rest) s
    = (Raised (AttributeError (dict_get entries "action") "upper"), s')
    /\ same_lists s s'.
Proof.
  intros dom Hcontent Hanswer Hjson Hnot.
  destruct (observe_and_plan_object step s content w1 response_text w2
              entries Hcontent Hanswer Hjson) as (s1 & Hplan).
  pose proof (observe_and_plan_same_lists step s) as Hsame.
  rewrite Hplan in Hsame. cbn [snd] in Hsame.
  exists s1. split; [|exact Hsame].
  rewrite for_steps_cons. unfold iteration, bind. rewrite Hplan.
  destruct (dict_get entries "action") as [| | | |a| |]; try reflexivity.
  now contradiction (Hnot a).
Qed.

End Steps.

Section Links.
Context {E : Env}.

Lemma link_field_of_script place :
  py_of_js (extract_link place) = link_field_by_order place.
Proof.
  rewrite extract_link_order. unfold link_by_order, link_field_by_order.
  destruct (matches_a (target place)); [reflexivity|].
  destruct (find matches_a (ancestors place)); [reflexivity|].
  destruct (find matches_a (descendants (target place))); reflexivity.
Qed.

(** What the loop over the elements returns starts with the data it was
    given. *)
Lemma scrape_elements_extends elements :
  forall data (s : state E),
    match fst (scrape_elements elements data s) with
    | Ok found => exists later, found = data ++ later
    | Raised _ => True
    end.
Proof.
  induction elements as [|el rest IH]; intros data s; cbn [scrape_elements].
  - exists []. cbn. now rewrite app_nil_r.
  - unfold evaluate_link. unfold_m.
    destruct (el_inner_text E el (world s)) as [[t|e] w1]; cbn; [|exact I].
    destruct (el_resolve E el w1) as [[place|e] w2]; cbn; [|exact I].
    destruct (str_truthy (strip t)).
    + match goal with
      | |- context [scrape_elements rest ?d ?st] =>
          specialize (IH d st); destruct (fst (scrape_elements rest d st))
      end; [|exact I].
      destruct IH as (later & ->). rewrite <- app_assoc. eauto.
    + apply IH.
Qed.

(** C10.  For every matched element whose text and place in the
    document are read and whose trimmed text is not empty, the item that
    the scrape appends to its data, at the element's turn and in the
    data it returns, has the trimmed text as its text and as its link:
    the element's own href when the element is a link; otherwise the href
    of its nearest enclosing link; otherwise the href of its first
    descendant link in document order; otherwise None. *)
Theorem scraped_link_order
        el rest data (s : state E) inner_text w1 place w2 :
  let scraped :=
    Item (strip inner_text)
         (if matches_a (target place) then href_value (target place)
          else
            match find matches_a (ancestors place) with
            | Some enclosing => href_value enclosing
            | None =>
                match find matches_a (descendants (target place)) with
                | Some inner => href_value inner
                | None => PNone
                end
            end) in
  el_inner_text E el (world s) = (Ok inner_text, w1) ->
  el_resolve E el w1 = (Ok place, w2) ->
  str_truthy (strip inner_text) = true ->
  fst (evaluate_link el (State w1 (history s) (collected_data s) (console s)))
  = Ok (link scraped)
  /\ link scraped = link_field_by_order place
  /\ scrape_elements (el :: rest) data s
     = scrape_elements rest (data ++ [scraped])
                       (State w2 (history s) (collected_data s) (console s))
  /\ match fst (scrape_elements (el :: rest) data s) with
     | Ok found => exists later, found = data ++ scraped :: later
     | Raised _ => True
     end.
Proof.
  intros scraped Htext Hplace Hsome.
  assert (Hlink : link scraped = py_of_js (extract_link place))
    by (symmetry; apply link_field_of_script).
  assert (Hstep : scrape_elements (el :: rest) data s
                  = scrape_elements rest (data ++ [scraped])
                      (State w2 (history s) (collected_data s) (console s))).
  { cbn [scrape_elements]. unfold evaluate_link. unfold_m. rewrite Htext.
    cbn [world history collected_data console]. rewrite Hplace.
    cbn [world history collected_data console]. rewrite Hsome.
    subst scraped. cbn [link] in Hlink. now rewrite Hlink. }
  split; [|split; [reflexivity|split; [exact Hstep|]]].
  - unfold evaluate_link. unfold_m.
    cbn [world history collected_data console]. rewrite Hplace.
    cbn [fst]. now rewrite Hlink.
  - rewrite Hstep.
    pose proof (scrape_elements_extends rest (data ++ [scraped])
                  (State w2 (history s) (collected_data s) (console s))) as H.
    destruct (fst (scrape_elements rest (data ++ [scraped]) _)); [|exact I].
    destruct H as (later & ->). exists later. now rewrite <- app_assoc.
Qed.
End Links.

End WebAgentFacts.

(* ================================================================== *)
(** * Runs on the scripted world *)
(* ================================================================== *)

Module Runs.
Import AgentPlanner WebAgent WebAgentFacts Script.

(** The scenario of the specification: type, click, scrape with the
    finish signal.  The blank cell is dropped. *)
Example search_then_scrape :
  let final := main_loop (start [says "type X"; says "click submit";
                                 says "scrape results, finish"]) in
  fst final = Ok Broke
  /\ history (snd final)
     = ["Typed 'X' into #search"; "Clicked #submit";
        "Scraped data from .result"]
  /\ collected_data (snd final)
     = [ScrapeRecord 2 [Item "First result" (PStr "https://example.org/1");
                        Item "Third" (PStr "https://example.org/3")]]
  /\ banners (console (snd final)) = [1; 2; 3].
Proof. vm_compute. auto. Qed.

(** C3.  The service answers with a JSON object that has no action
    key.  The run does not log and skip: it raises an AttributeError at
    the first step, from the line that prints the action, before step 3
    and its unknown-action branch are reached; the next step, whose
    plan is ready in the script, is never begun. *)
Theorem missing_action_aborts_run :
  let s := start [says "no action"; says "type X"] in
  fst (main_loop s) = Raised (AttributeError PNone "upper")
  /\ console (snd (main_loop s))
     = [StepBanner 1 MAX_STEPS; PlannerThinking "https://example.org/";
        ThoughtLine (PStr "nothing to do")]
  /\ history (snd (main_loop s)) = []
  /\ answers (world (snd (main_loop s))) = [says "type X"].
Proof. vm_compute. auto. Qed.

(** The same with an explicit null. *)
Example null_action_aborts_run :
  fst (main_loop (start [says "null action"; says "type X"]))
  = Raised (AttributeError PNone "upper").
Proof. reflexivity. Qed.

(** An unknown action that is a string is logged and skipped. *)
Example hover_is_skipped :
  let s := start [says "hover"; says "type X"] in
  fst (iteration 0 s) = Ok Continue
  /\ history (snd (iteration 0 s)) = []
  /\ interactions (world (snd (iteration 0 s))) = []
  /\ In (UnknownAction (PStr "hover")) (console (snd (iteration 0 s))).
Proof. vm_compute. auto 10. Qed.

(** C2, at a step where the service raises. *)
Lemma planning_failure_finishes_witness :
  let s := start [fails; says "type X"] in
  page_content env (world s)
  = (Ok "<!DOCTYPE html><html>...</html>", world s)
  /\ planning_fails "https://example.org/" "<html>...</html>" [] (world s)
  /\ exists s',
      for_steps [0; 1; 2] s = (Ok Broke, s')
      /\ history s' = history s
      /\ collected_data s' = collected_data s
      /\ banners (console s') = banners (console s) ++ [0 + 1].
Proof.
  intros s. split; [reflexivity|]. split; [exact I|].
  exact (proj2 (proj2
           (planning_failure_finishes 0 [1; 2] s
              "<!DOCTYPE html><html>...</html>" (world s) eq_refl I))).
Defined.

(** The same when the answer is not JSON. *)
Example unparseable_answer_finishes :
  let final := main_loop (start [says "Sorry, I cannot help."; says "type X"]) in
  fst final = Ok Broke /\ banners (console (snd final)) = [1].
Proof. vm_compute. auto. Qed.

(** C4 as stated fails: a scrape that finds nothing and carries no
    finish signal adds two entries in one step. *)
Lemma empty_scrape_adds_two_entries :
  let s := start [says "scrape missing"] in
  history (snd (iteration 0 s))
  = ["Scraped data from .missing";
     "WARNING: Scraped 0 items using .missing. Try a different selector."]
  /\ ~ length (history (snd (iteration 0 s))) <= length (history s) + 1.
Proof.
  split; [reflexivity|]. vm_compute. lia.
Qed.

(** C5 as stated fails: with the finish signal, a scrape that finds
    nothing leaves no warning in the history, and the loop ends. *)
Lemma empty_scrape_with_finish_has_no_warning :
  let s := start [says "scrape missing, finish"] in
  fst (observe_and_plan 0 s)
  = Ok (Some (PStr "scrape", PStr ".missing", PStr "finish"))
  /\ matched_elements (PStr ".missing") (world (snd (observe_and_plan 0 s)))
     = Ok []
  /\ collected_data (snd (iteration 0 s)) = [ScrapeRecord 0 []]
  /\ history (snd (iteration 0 s)) = ["Scraped data from .missing"]
  /\ ~ In (zero_items_warning env (PStr ".missing"))
          (history (snd (iteration 0 s)))
  /\ fst (iteration 0 s) = Ok Break.
Proof.
  repeat split; try reflexivity.
  vm_compute. intros [H | []]. discriminate H.
Qed.

(** C5, amended, on a scrape that finds nothing and does not ask to
    finish. *)
Lemma empty_scrape_warns_and_continues_witness :
  let s := start [says "scrape missing"; says "type X"] in
  let s1 := snd (observe_and_plan 0 s) in
  observe_and_plan 0 s
  = (Ok (Some (PStr "scrape", PStr ".missing", PStr "all rows")), s1)
  /\ py_eq_str (PStr "all rows") "finish" = false
  /\ matched_elements (PStr ".missing") (world s1) = Ok []
  /\ exists s2,
      iteration 0 s = (Ok Continue, s2)
      /\ collected_data s2 = collected_data s ++ [ScrapeRecord 0 []]
      /\ history s2
         = history s ++ [scraped_entry env (PStr ".missing");
                         zero_items_warning env (PStr ".missing")]
      /\ for_steps [0; 1] s = for_steps [1] s2.
Proof.
  intros s s1. split; [reflexivity|]. split; [reflexivity|].
  split; [reflexivity|].
  exact (empty_scrape_warns_and_continues 0 [1] s s1 (PStr ".missing")
           (PStr "all rows") eq_refl eq_refl eq_refl).
Defined.

(** C6 as stated fails: the scrape asks to finish, but its selector is
    rejected by the page; nothing is recorded and the loop goes on to
    the second and third steps. *)
Lemma failed_scrape_with_finish_goes_on :
  let s := start [says "scrape bad selector, finish"; says "click submit"] in
  fst (observe_and_plan 0 s)
  = Ok (Some (PStr "scrape", PStr "li:contains(x)", PStr "finish"))
  /\ fst (iteration 0 s) = Ok Continue
  /\ collected_data (snd (iteration 0 s)) = []
  /\ history (snd (iteration 0 s))
     = ["Failed to execute scrape on li:contains(x): Unexpected token in selector"]
  /\ banners (console (snd (main_loop s))) = [1; 2; 3].
Proof. repeat split; reflexivity. Qed.

(** C6, amended, on the three result rows: the record holds the two
    rows that have a text, each with its link. *)
Lemma scrape_with_finish_ends_loop_witness :
  let s := start [says "scrape results, finish"; says "type X"] in
  let s1 := snd (observe_and_plan 0 s) in
  let printed := console s1 ++ [ScrapingFrom (PStr ".result")] in
  let data := [Item "First result" (PStr "https://example.org/1");
               Item "Third" (PStr "https://example.org/3")] in
  observe_and_plan 0 s
  = (Ok (Some (PStr "scrape", PStr ".result", PStr "finish")), s1)
  /\ page_query_selector_all env (PStr ".result") (world s1)
     = (Ok results, world s1)
  /\ scrape_elements (E := env) results []
                     (State (world s1) (history s1) (collected_data s1) printed)
     = (Ok data, State (world s1) (history s1) (collected_data s1) printed)
  /\ for_steps [0; 1] s
     = (Ok Broke,
        State (world s1)
              (history s ++ [scraped_entry env (PStr ".result")])
              (collected_data s ++ [ScrapeRecord 0 data])
              (printed ++ [ScrapedCount (length data); ScrapeComplete])).
Proof.
  intros s s1 printed data. split; [reflexivity|]. split; [reflexivity|].
  split; [reflexivity|].
  exact (scrape_with_finish_ends_loop (E := env) 0 [1] s s1 (PStr ".result")
           results (world s1) data
           (State (world s1) (history s1) (collected_data s1) printed)
           eq_refl eq_refl eq_refl).
Defined.

(** C7, on a scrape that finds nothing and asks to finish. *)
Lemma empty_scrape_with_finish_skips_warning_witness :
  let s := start [says "scrape missing, finish"; says "type X"] in
  let s1 := snd (observe_and_plan 0 s) in
  observe_and_plan 0 s
  = (Ok (Some (PStr "scrape", PStr ".missing", PStr "finish")), s1)
  /\ matched_elements (PStr ".missing") (world s1) = Ok []
  /\ exists s2,
      for_steps [0; 1] s = (Ok Broke, s2)
      /\ collected_data s2 = collected_data s ++ [ScrapeRecord 0 []]
      /\ history s2 = history s ++ [scraped_entry env (PStr ".missing")].
Proof.
  intros s s1. split; [reflexivity|]. split; [reflexivity|].
  exact (empty_scrape_with_finish_skips_warning 0 [1] s s1 (PStr ".missing")
           eq_refl eq_refl).
Defined.

(** A service that never stops asking for a click: the loop ends by
    exhaustion after MAX_STEPS steps. *)
Example stubborn_planner_exhausts :
  let final :=
    main_loop (init (E := stubborn) (Scripted [] [])) in
  fst final = Ok Exhausted
  /\ banners (console (snd final)) = [1; 2; 3; 4; 5; 6; 7; 8; 9; 10]
  /\ length (history (snd final)) = MAX_STEPS.
Proof. vm_compute. auto. Qed.

(** C10, on the first result row, a heading inside a link: its item
    carries the href of the enclosing link; and on the third row, a card
    with two links below it: the first in document order. *)
Lemma scraped_link_order_witness :
  let s := start [] in
  let heading := ("  First result ",
                  Located (plain "H3" [])
                          [anchor "https://example.org/1" []; plain "DIV" []]) in
  el_inner_text env heading (world s) = (Ok "  First result ", world s)
  /\ el_resolve env heading (world s) = (Ok (snd heading), world s)
  /\ str_truthy (strip "  First result ") = true
  /\ scrape_elements (E := env) results [] s
     = (Ok [Item "First result" (PStr "https://example.org/1");
            Item "Third" (PStr "https://example.org/3")], s)
  /\ match fst (scrape_elements (E := env) results [] s) with
     | Ok found =>
         exists later,
           found = [] ++ Item "First result" (PStr "https://example.org/1")
                         :: later
     | Raised _ => True
     end.
Proof.
  intros s heading. split; [reflexivity|]. split; [reflexivity|].
  split; [reflexivity|]. split; [reflexivity|].
  exact (proj2 (proj2 (proj2
           (scraped_link_order (E := env) heading (tl results) [] s
              "  First result " (world s) (snd heading) (world s)
              eq_refl eq_refl eq_refl)))).
Defined.

End Runs.

(* ================================================================== *)
(** * More about the simplifier *)
(* ================================================================== *)

Module DOMSimplifierMore.
Import DOMSimplifier DOMSimplifierFacts DOMSimplifierSpec.

Lemma flat_map_flat_map {A B C} (f : A -> list B) (g : B -> list C) l :
  flat_map g (flat_map f l) = flat_map (fun x => flat_map g (f x)) l.
Proof.
  induction l as [|a l IH]; cbn [flat_map]; [reflexivity|].
  now rewrite flat_map_app, IH.
Qed.

Lemma flat_map_ext_in {A B} (f g : A -> list B) l :
  Forall (fun a => f a = g a) l -> flat_map f l = flat_map g l.
Proof.
  induction 1 as [|a l Ha _ IH]; cbn [flat_map]; [reflexivity|].
  now rewrite Ha, IH.
Qed.

Lemma map_ext_Forall {A B} (f g : A -> B) l :
  Forall (fun a => f a = g a) l -> map f l = map g l.
Proof.
  induction 1 as [|a l Ha _ IH]; cbn [map]; [reflexivity|].
  now rewrite Ha, IH.
Qed.

Lemma flat_map_singleton {A} (f : A -> list A) l :
  Forall (fun a => f a = [a]) l -> flat_map f l = l.
Proof.
  induction 1 as [|a l Ha _ IH]; cbn [flat_map]; [reflexivity|].
  now rewrite Ha, IH.
Qed.

Lemma map_id_Forall {A} (f : A -> A) l :
  Forall (fun a => f a = a) l -> map f l = l.
Proof.
  induction 1 as [|a l Ha _ IH]; cbn [map]; [reflexivity|].
  now rewrite Ha, IH.
Qed.

Lemma listed_In ident idents : listed ident idents = true <-> In ident idents.
Proof.
  unfold listed. rewrite existsb_exists. split.
  - intros (x & Hx & Heq). apply Nat.eqb_eq in Heq. now subst.
  - intros H. exists ident. split; [exact H | apply Nat.eqb_refl].
Qed.

(** ** The first loop *)

Lemma without_nil n : without [] n = [n].
Proof.
  induction n as [ident name attrs contents IH | kind s] using node_forall_ind;
    cbn [without listed existsb]; [|reflexivity].
  now rewrite (flat_map_singleton _ _ IH).
Qed.

Lemma decompose_from_without element n :
  decompose_from element n = without [element] n.
Proof.
  induction n as [ident name attrs contents IH | kind s] using node_forall_ind;
    cbn [decompose_from without listed existsb]; [|reflexivity].
  rewrite orb_false_r. destruct (ident =? element)%nat; [reflexivity|].
  now rewrite (flat_map_ext_in _ _ _ IH).
Qed.

Lemma without_without element idents n :
  flat_map (without idents) (without [element] n) = without (element :: idents) n.
Proof.
  induction n as [ident name attrs contents IH | kind s] using node_forall_ind;
    cbn [without listed existsb flat_map]; [|reflexivity].
  rewrite orb_false_r. destruct (ident =? element)%nat; cbn [orb flat_map];
    [reflexivity|].
  rewrite app_nil_r. cbn [without]. fold (listed ident idents).
  destruct (listed ident idents); [reflexivity|].
  rewrite flat_map_flat_map. now rewrite (flat_map_ext_in _ _ _ IH).
Qed.

Lemma decompose_each_without elements :
  forall s,
    fold_left (fun tree element => decompose (tag_ident element) tree) elements s
    = flat_map (without (map tag_ident elements)) s.
Proof.
  induction elements as [|element rest IH]; intros s; cbn [fold_left map].
  - symmetry. apply flat_map_singleton, Forall_forall. intros n _.
    apply without_nil.
  - rewrite IH. unfold decompose. rewrite flat_map_flat_map.
    apply flat_map_ext_in, Forall_forall. intros n _.
    rewrite decompose_from_without. apply without_without.
Qed.

(** ** The second loop *)

Lemma keep_allowed_idempotent attrs :
  keep_allowed (keep_allowed attrs) = keep_allowed attrs.
Proof.
  unfold keep_allowed. induction attrs as [|kv attrs IH]; cbn [filter];
    [reflexivity|].
  destruct (mem_string (fst kv) allowed_attrs) eqn:Hkv; cbn [filter];
    now rewrite ?Hkv, IH.
Qed.

Lemma keep_allowed_fixed attrs :
  attrs_allowed attrs -> keep_allowed attrs = attrs.
Proof.
  unfold attrs_allowed, keep_allowed.
  induction 1 as [|kv attrs Hkv _ IH]; cbn [filter]; [reflexivity|].
  apply mem_string_In in Hkv. now rewrite Hkv, IH.
Qed.

Lemma filtered_nil n : filtered [] n = n.
Proof.
  induction n as [ident name attrs contents IH | kind s] using node_forall_ind;
    cbn [filtered listed existsb]; [|reflexivity].
  now rewrite (map_id_Forall _ _ IH).
Qed.

Lemma filtered_update element idents n :
  filtered idents (update_attrs_in element keep_allowed n)
  = filtered (element :: idents) n.
Proof.
  induction n as [ident name attrs contents IH | kind s] using node_forall_ind;
    cbn [filtered update_attrs_in listed existsb]; [|reflexivity].
  fold (listed ident idents). rewrite map_map, (map_ext_Forall _ _ _ IH).
  f_equal.
  destruct (ident =? element)%nat, (listed ident idents); cbn [orb];
    auto using keep_allowed_idempotent.
Qed.

Lemma update_each_filtered tags :
  forall s,
    fold_left (fun tree t => update_attrs (tag_ident t) keep_allowed tree) tags s
    = map (filtered (map tag_ident tags)) s.
Proof.
  induction tags as [|t rest IH]; intros s; cbn [fold_left map].
  - symmetry. apply map_id_Forall, Forall_forall. intros n _.
    apply filtered_nil.
  - rewrite IH. unfold update_attrs. rewrite map_map.
    apply map_ext. intros n. apply filtered_update.
Qed.

(** The two loops, each as a function of the tree. *)
Lemma simplify_soup_passes s :
  simplify_soup s
  = let kept :=
      flat_map
        (without (map tag_ident
                      (find_all (fun name => mem_string name removed_tags) s)))
        s in
    map (filtered (map tag_ident (all_tags kept))) kept.
Proof.
  unfold simplify_soup, simplify_attributes, remove_heavy_tags.
  rewrite update_each_filtered, decompose_each_without. reflexivity.
Qed.

Lemma filtered_tags idents t n :
  In t (find_all_from any_name (filtered idents n)) ->
  exists t0,
    In t0 (find_all_from any_name n)
    /\ tag_ident t = tag_ident t0 /\ tag_name t = tag_name t0
    /\ tag_attrs t
       = if listed (tag_ident t0) idents
         then keep_allowed (tag_attrs t0) else tag_attrs t0.
Proof.
  induction n as [ident name attrs contents IH | kind s] using node_forall_ind;
    cbn [filtered find_all_from any_name]; [|intros []].
  cbn [app In]. intros [<- | Ht].
  - exists (TagOf ident name attrs). split; [now left|]. repeat split.
  - apply in_flat_map in Ht. destruct Ht as (c' & Hc' & Ht).
    apply in_map_iff in Hc'. destruct Hc' as (c & <- & Hc).
    rewrite Forall_forall in IH. destruct (IH c Hc Ht) as (t0 & Ht0 & Hup).
    exists t0. split; [|exact Hup]. right. apply in_flat_map. eauto.
Qed.

(** X3.  The simplifier makes no tag and renames none: every tag of its
    output is a tag of its input, the same object under the same name,
    with exactly the allowed attributes of that tag, in their order. *)
Theorem simplify_soup_tags_from_input (s : soup) :
  Forall (fun t => exists t0, In t0 (all_tags s) /\ trimmed_from t t0)
         (all_tags (simplify_soup s)).
Proof.
  apply Forall_forall. intros t Ht.
  unfold simplify_soup, simplify_attributes in Ht.
  rewrite update_each_filtered in Ht.
  unfold all_tags in Ht at 1. unfold find_all in Ht at 1.
  apply in_flat_map in Ht. destruct Ht as (n' & Hn' & Ht).
  apply in_map_iff in Hn'. destruct Hn' as (n & <- & Hn).
  apply filtered_tags in Ht.
  destruct Ht as (t0 & Ht0 & Hid & Hname & Hattrs).
  assert (Hkept : In t0 (all_tags (remove_heavy_tags s)))
    by (apply in_flat_map; eauto).
  assert (Hlisted : listed (tag_ident t0)
                           (map tag_ident (all_tags (remove_heavy_tags s))) = true)
    by (apply listed_In, in_map, Hkept).
  unfold all_tags in Hlisted. rewrite Hlisted in Hattrs.
  unfold remove_heavy_tags in Hkept. apply decompose_each_tags in Hkept.
  exists t0. split; [tauto|]. repeat split; assumption.
Qed.

(** ** A document that is already simple *)

Lemma filtered_fixed idents n :
  Forall (fun t => attrs_allowed (tag_attrs t)) (find_all_from any_name n) ->
  filtered idents n = n.
Proof.
  induction n as [ident name attrs contents IH | kind s] using node_forall_ind;
    cbn [filtered find_all_from any_name]; [|reflexivity].
  cbn [app]. intros Hall. inversion Hall as [|? ? Hself Hbelow]; subst.
  cbn [tag_attrs] in Hself. rewrite (keep_allowed_fixed _ Hself).
  replace (if listed ident idents then attrs else attrs) with attrs
    by now destruct (listed ident idents).
  f_equal. apply map_id_Forall. rewrite Forall_forall in *.
  intros c Hc. apply IH; [exact Hc|]. apply Forall_forall.
  intros t Ht. apply Hbelow. apply in_flat_map. eauto.
Qed.

Lemma clean_soup_unchanged (s : soup) :
  Forall clean_tag (all_tags s) -> simplify_soup s = s.
Proof.
  intros Hclean. rewrite Forall_forall in Hclean.
  assert (Hnone : find_all (fun name => mem_string name removed_tags) s = []).
  { destruct (find_all _ s) as [|t rest] eqn:Hfound; [reflexivity|].
    assert (Ht : In t (find_all (fun name => mem_string name removed_tags) s))
      by (rewrite Hfound; now left).
    apply find_all_wanted in Ht. destruct Ht as [Ht Hname].
    apply mem_string_In in Hname. now destruct (Hclean t Ht) as [Hkept _]. }
  unfold simplify_soup, remove_heavy_tags. rewrite Hnone. cbn [fold_left].
  unfold simplify_attributes. rewrite update_each_filtered.
  apply map_id_Forall, Forall_forall. intros n Hn.
  apply filtered_fixed, Forall_forall. intros t Ht.
  apply (Hclean t). apply in_flat_map. eauto.
Qed.

(** X2.  Simplifying twice is simplifying once. *)
Theorem simplify_soup_idempotent (s : soup) :
  simplify_soup (simplify_soup s) = simplify_soup s.
Proof.
  apply clean_soup_unchanged, simplify_soup_clean.
Qed.

(** ** One pass *)

Lemma map_flat_map {A B C} (f : B -> C) (g : A -> list B) l :
  map f (flat_map g l) = flat_map (fun x => map f (g x)) l.
Proof.
  induction l as [|a l IH]; cbn [flat_map map]; [reflexivity|].
  now rewrite map_app, IH.
Qed.

Lemma NoDup_map_same {A B} (f : A -> B) l a b :
  NoDup (map f l) -> In a l -> In b l -> f a = f b -> a = b.
Proof.
  induction l as [|x l IH]; cbn [map In]; [tauto|].
  intros Hnd Ha Hb Hab. inversion Hnd as [|? ? Hx Hl]; subst.
  destruct Ha as [-> | Ha], Hb as [-> | Hb]; auto.
  - contradiction Hx. rewrite Hab. now apply in_map.
  - contradiction Hx. rewrite <- Hab. now apply in_map.
Qed.

Lemma pruned_passes removed touched n :
  (forall t, In t (find_all_from any_name n) ->
             listed (tag_ident t) removed = mem_string (tag_name t) removed_tags) ->
  (forall t, In t (flat_map (find_all_from any_name) (without removed n)) ->
             listed (tag_ident t) touched = true) ->
  map (filtered touched) (without removed n) = pruned n.
Proof.
  induction n as [ident name attrs contents IH | kind s] using node_forall_ind;
    cbn [without pruned find_all_from any_name]; [|reflexivity].
  intros Hremoved Htouched.
  pose proof (Hremoved (TagOf ident name attrs) (or_introl eq_refl)) as Hself.
  cbn [tag_ident tag_name] in Hself. rewrite Hself in *.
  destruct (mem_string name removed_tags); [reflexivity|].
  cbn [map filtered flat_map find_all_from any_name app] in *.
  rewrite app_nil_r in Htouched.
  pose proof (Htouched (TagOf ident name attrs) (or_introl eq_refl)) as Hmine.
  cbn [tag_ident] in Hmine. rewrite Hmine.
  do 2 f_equal. rewrite map_flat_map.
  apply flat_map_ext_in. rewrite Forall_forall in *. intros c Hc.
  apply IH; [exact Hc| |].
  - intros t Ht. apply Hremoved. right. apply in_flat_map. eauto.
  - intros t Ht. apply Htouched. right.
    rewrite flat_map_flat_map. apply in_flat_map. eauto.
Qed.

(** X1.  When no two tags of the document are the same object, the two loops
    do what one pass over the tree does: they drop each tag with a
    removed name together with all it holds, leave on every other tag
    its allowed attributes in their order, and keep every string that is
    not inside a dropped tag as it is and where it is. *)
Theorem simplify_soup_one_pass (s : soup) :
  distinct_tags s -> simplify_soup s = flat_map pruned s.
Proof.
  intros Hdistinct. rewrite simplify_soup_passes. cbv zeta.
  set (removed := map tag_ident (find_all _ s)).
  set (kept := flat_map (without removed) s).
  unfold kept at 2. rewrite map_flat_map.
  apply flat_map_ext_in, Forall_forall. intros n Hn.
  apply pruned_passes.
  - intros t Ht.
    assert (Hin : In t (all_tags s)) by (apply in_flat_map; eauto).
    destruct (mem_string (tag_name t) removed_tags) eqn:Hname.
    + apply listed_In, in_map, find_all_wanted. auto.
    + destruct (listed (tag_ident t) removed) eqn:Hl; [|reflexivity].
      apply listed_In, in_map_iff in Hl. destruct Hl as (t' & Hid & Ht').
      apply find_all_wanted in Ht'. destruct Ht' as [Ht' Hname'].
      assert (t' = t) by (eapply NoDup_map_same; eauto).
      subst t'. congruence.
  - intros t Ht. apply listed_In, in_map.
    unfold all_tags, find_all, kept. rewrite flat_map_flat_map.
    apply in_flat_map. eauto.
Qed.

Lemma simplify_soup_one_pass_witness :
  distinct_tags Script.page_tree
  /\ simplify_soup Script.page_tree = flat_map pruned Script.page_tree.
Proof.
  assert (Hdistinct : distinct_tags Script.page_tree).
  { unfold distinct_tags. cbn.
    repeat (constructor; [cbn; intuition discriminate|]). constructor. }
  split; [exact Hdistinct|].
  exact (simplify_soup_one_pass Script.page_tree Hdistinct).
Defined.
End DOMSimplifierMore.

(* ================================================================== *)
(** * More about the agent *)
(* ================================================================== *)

Module WebAgentMore.
Import AgentPlanner WebAgent WebAgentFacts.

Section Outcomes.
Context {E : Env}.

(** X5.  When the page cannot be read, the loop ends at that step: the
    planner is not asked (the world is as the failed read left it),
    nothing is appended to the history or to the collected data, and the
    console gains the step banner and the error line. *)
Theorem unreadable_page_ends_loop step rest (s : state E) e w1 :
  page_content E (world s) = (Raised e, w1) ->
  for_steps (step :: rest) s
  = (Ok Broke,
     State w1 (history s) (collected_data s)
           (console s ++ [StepBanner (step + 1) MAX_STEPS; ErrorReadingPage e])).
Proof.
  intros Hread. rewrite for_steps_cons.
  unfold iteration, observe_and_plan, observe. unfold_m.
  cbn [world history collected_data console]. rewrite Hread.
  cbn [world history collected_data console]. now rewrite <- app_assoc.
Qed.

(** X6.  A finish action ends the loop without any operation on the page:
    the world is as planning left it, and the history and the collected
    data are as they were before the step. *)
Theorem finish_action_ends_loop
        step rest (s s1 : state E) selector value :
  observe_and_plan step s = (Ok (Some (PStr "finish", selector, value)), s1) ->
  for_steps (step :: rest) s
  = (Ok Broke,
     State (world s1) (history s) (collected_data s)
           (console s1 ++ [GoalAchieved])).
Proof.
  intros Hplan.
  destruct (observe_and_plan_same_lists step s) as [Hh Hd].
  rewrite Hplan in Hh, Hd. cbn [snd] in Hh, Hd.
  rewrite for_steps_cons, (iteration_planned _ _ _ _ _ _ Hplan), act_finish.
  now rewrite Hh, Hd.
Qed.

Lemma act_type step selector value (s : state E) :
  act step (PStr "type") selector value s
  = try_except (do_type selector value)
      (fun e =>
         print (ErrorLine (failure_message E (PStr "type") selector e)) ;;
         history_append (failure_message E (PStr "type") selector e) ;;
         ret Continue) s.
Proof. reflexivity. Qed.

Lemma act_click step selector value (s : state E) :
  act step (PStr "click") selector value s
  = try_except (do_click selector)
      (fun e =>
         print (ErrorLine (failure_message E (PStr "click") selector e)) ;;
         history_append (failure_message E (PStr "click") selector e) ;;
         ret Continue) s.
Proof. reflexivity. Qed.

(** X7.  A type or a click always lets the loop go on and appends exactly one
    entry to the history, its outcome or its failure; the collected data
    are not touched. *)
Theorem type_and_click_append_one_entry step selector value (s : state E) :
  (exists s' entry,
      act step (PStr "type") selector value s = (Ok Continue, s')
      /\ history s' = history s ++ [entry]
      /\ collected_data s' = collected_data s
      /\ (entry = typed_entry E value selector
          \/ exists e, entry = failure_message E (PStr "type") selector e))
  /\ (exists s' entry,
         act step (PStr "click") selector value s = (Ok Continue, s')
         /\ history s' = history s ++ [entry]
         /\ collected_data s' = collected_data s
         /\ (entry = clicked_entry E selector
             \/ exists e, entry = failure_message E (PStr "click") selector e)).
Proof.
  split.
  - rewrite act_type. unfold try_except.
    pose proof (do_type_effect selector value s) as H.
    destruct (do_type selector value s) as [[c|e] s1].
    + destruct H as (-> & Hh & Hd). exists s1, (typed_entry E value selector).
      auto.
    + destruct H as [Hh Hd]. unfold_m. cbn.
      do 2 eexists. split; [reflexivity|]. cbn. rewrite Hh, Hd. eauto.
  - rewrite act_click. unfold try_except.
    pose proof (do_click_effect selector s) as H.
    destruct (do_click selector s) as [[c|e] s1].
    + destruct H as (-> & Hh & Hd). exists s1, (clicked_entry E selector).
      auto.
    + destruct H as [Hh Hd]. unfold_m. cbn.
      do 2 eexists. split; [reflexivity|]. cbn. rewrite Hh, Hd. eauto.
Qed.

(** X8.  When the wait for the selector fails, type and click leave the
    element alone: neither [fill] nor [click] is called (the world is as
    the failed wait left it), the failure is written to the history and
    the loop goes on. *)
Theorem failed_wait_skips_interaction
        step action selector value (s : state E) e w1 :
  action = PStr "type" \/ action = PStr "click" ->
  page_wait_for_selector E selector Visible TIMEOUT_MS (world s)
  = (Raised e, w1) ->
  act step action selector value s
  = (Ok Continue,
     State w1 (history s ++ [failure_message E action selector e])
           (collected_data s)
           (console s ++ [ErrorLine (failure_message E action selector e)])).
Proof.
  intros [-> | ->] Hwait.
  - rewrite act_type. unfold do_type. unfold_m.
    cbn [world history collected_data console]. now rewrite Hwait.
  - rewrite act_click. unfold do_click. unfold_m.
    cbn [world history collected_data console]. now rewrite Hwait.
Qed.

(** X9.  After a click that succeeded, what the wait for the network to go
    idle does is of no consequence but for the world: if it times out,
    the click is still recorded as done and the loop goes on. *)
Theorem click_ignores_idle_timeout
        step selector value (s : state E) w1 w2 :
  page_wait_for_selector E selector Visible TIMEOUT_MS (world s)
  = (Ok tt, w1) ->
  page_click E selector w1 = (Ok tt, w2) ->
  act step (PStr "click") selector value s
  = (Ok Continue,
     State (snd (page_wait_for_load_state E "networkidle" 5000%Z w2))
           (history s ++ [clicked_entry E selector])
           (collected_data s) (console s)).
Proof.
  intros Hwait Hclick. rewrite act_click. unfold do_click. unfold_m.
  cbn [world history collected_data console]. rewrite Hwait.
  cbn [world history collected_data console]. rewrite Hclick.
  cbn [world history collected_data console].
  destruct (page_wait_for_load_state E "networkidle" 5000 w2) as [[u|e] w3];
    reflexivity.
Qed.

(** X10.  An answer that is JSON but not an object (a list, a number, a
    string, null) ends the run: [plan.get] raises an AttributeError that
    nothing catches.  The history and the collected data are as they
    were. *)
Theorem non_object_plan_aborts
        step rest (s : state E) content w1 response_text w2 plan :
  let dom := DOMSimplifier.simplify (bs4_parse E) (bs4_prettify E) content in
  page_content E (world s) = (Ok content, w1) ->
  generate_content E
    (Prompt (GOAL E) (history s) (page_url E w1)
            (substring 0 (30 * 1000) dom)) w1
  = (Ok response_text, w2) ->
  json_loads E response_text = Ok plan ->
  (forall entries, plan <> PDict entries) ->
  for_steps (step :: rest) s
  = (Raised (AttributeError plan "get"),
     State w2 (history s) (collected_data s)
           (console s ++ [StepBanner (step + 1) MAX_STEPS;
                          PlannerThinking (page_url E w1)])).
Proof.
  intros dom Hcontent Hanswer Hjson Hnot.
  rewrite for_steps_cons.
  unfold iteration, observe_and_plan, observe, get_next_action. unfold_m.
  cbn [world history collected_data console].
  rewrite Hcontent. cbn [world history collected_data console].
  fold dom. rewrite Hanswer. cbn [world history collected_data console].
  rewrite Hjson.
  destruct plan; try (cbn; now rewrite <- app_assoc).
  now contradiction (Hnot entries).
Qed.

(** X21.  An action that is a string but none of type, click, scrape and
    finish costs the step and nothing else: no operation on the page, no
    entry in the history, no record; the console names the action and the
    loop goes on with the next step. *)
Theorem unknown_action_costs_a_step
        step rest (s s1 : state E) a selector value :
  observe_and_plan step s = (Ok (Some (PStr a, selector, value)), s1) ->
  ~ In a ["type"; "click"; "scrape"; "finish"] ->
  for_steps (step :: rest) s
  = for_steps rest
      (State (world s1) (history s) (collected_data s)
             (console s1 ++ [UnknownAction (PStr a)])).
Proof.
  intros Hplan Hnot.
  destruct (observe_and_plan_same_lists step s) as [Hh Hd].
  rewrite Hplan in Hh, Hd. cbn [snd] in Hh, Hd.
  rewrite for_steps_cons, (iteration_planned _ _ _ _ _ _ Hplan).
  rewrite (unknown_action_skipped step a selector value s1 Hnot).
  now rewrite Hh, Hd.
Qed.

(** X24.  The planner always returns: what the decoder made of the answer, as
    it is and whatever it is, when the service answered and the answer
    was JSON, and the fallback plan in every other case.  It changes
    neither the history nor the collected data. *)
Theorem get_next_action_returns url dom past (s : state E) :
  fst (get_next_action url dom past s)
  = Ok (match
          generate_content E
            (Prompt (GOAL E) past url (substring 0 (30 * 1000) dom)) (world s)
        with
        | (Ok response_text, _) =>
            match json_loads E response_text with
            | Ok plan => plan
            | Raised _ => fallback_plan
            end
        | (Raised _, _) => fallback_plan
        end)
  /\ history (snd (get_next_action url dom past s)) = history s
  /\ collected_data (snd (get_next_action url dom past s)) = collected_data s.
Proof.
  split; [|apply get_next_action_same_lists].
  unfold get_next_action. unfold_m. cbn [world history collected_data console].
  destruct (generate_content E _ (world s)) as [[response_text|e] w'];
    cbn [world history collected_data console]; [|reflexivity].
  destruct (json_loads E response_text); reflexivity.
Qed.
End Outcomes.

Section Prompt.
Context {E : Env}.

Lemma substring_head n : forall head tail,
  String.length head = n -> substring 0 n (head ++ tail)%string = head.
Proof.
  induction n as [|n IH]; intros [|c head] tail Hlen; cbn in Hlen;
    try discriminate.
  - now destruct tail.
  - cbn. f_equal. apply IH. lia.
Qed.

(** X11.  The planner never looks past the first 30000 characters of the
    simplified page: two pages with the same first 30000 characters get
    the same answer and leave the same state. *)
Theorem planner_reads_a_prefix url head tail1 tail2 past (s : state E) :
  String.length head = 30 * 1000 ->
  get_next_action url (head ++ tail1)%string past s
  = get_next_action url (head ++ tail2)%string past s.
Proof.
  intros Hlen. unfold get_next_action.
  now rewrite !(substring_head _ _ _ Hlen).
Qed.
End Prompt.

Section Items.
Context {E : Env}.

(** X12.  On a page whose elements can be read without effect, the data of a
    scrape are the trimmed texts and links of the matched elements, in
    the order of the match, without the elements whose trimmed text is
    empty, and nothing else. *)
Theorem scrape_elements_static text_of place_of elements :
  static_reads text_of place_of ->
  forall data (s : state E),
    scrape_elements elements data s
    = (Ok (data ++ flat_map (item_of text_of place_of) elements), s).
Proof.
  intros Hstatic. induction elements as [|el rest IH]; intros data s;
    cbn [scrape_elements flat_map].
  - unfold ret. now rewrite app_nil_r.
  - destruct (Hstatic el (world s)) as [Htext Hplace].
    unfold evaluate_link. unfold_m. rewrite Htext.
    cbn [world history collected_data console]. rewrite Hplace.
    cbn [world history collected_data console]. unfold item_of at 1.
    destruct (str_truthy (strip (text_of el))); rewrite IH.
    + rewrite <- app_assoc. now destruct s.
    + now destruct s.
Qed.

(** A scrape never records more items than elements were matched. *)
Theorem scrape_elements_bound elements :
  forall data (s : state E),
    match fst (scrape_elements elements data s) with
    | Ok found => length found <= length data + length elements
    | Raised _ => True
    end.
Proof.
  induction elements as [|el rest IH]; intros data s; cbn [scrape_elements].
  - cbn. lia.
  - unfold evaluate_link. unfold_m.
    destruct (el_inner_text E el (world s)) as [[t|e] w1]; cbn; [|exact I].
    destruct (el_resolve E el w1) as [[place|e] w2]; cbn; [|exact I].
    destruct (str_truthy (strip t)).
    + match goal with
      | |- context [scrape_elements rest ?d ?st] =>
          specialize (IH d st); destruct (fst (scrape_elements rest d st))
      end; [|exact I].
      rewrite length_app in IH. cbn [length] in *. lia.
    + match goal with
      | |- context [scrape_elements rest ?d ?st] =>
          specialize (IH d st); destruct (fst (scrape_elements rest d st))
      end; [|exact I].
      cbn [length]. lia.
Qed.

(** X13.  The record that a scrape appends holds at most as many items as
    elements were matched. *)
Theorem scrape_record_bound step selector value (s : state E) matched :
  matched_elements selector (world s) = Ok matched ->
  match do_scrape step selector value s with
  | (Ok _, s') =>
      exists data,
        collected_data s' = collected_data s ++ [ScrapeRecord step data]
        /\ length data <= length matched
  | (Raised _, _) => True
  end.
Proof.
  unfold matched_elements, do_scrape.
  pose proof (fun els st => scrape_elements_bound els [] st) as Hbound.
  pose proof (fun els => scrape_elements_only_world (E := E) els [])
    as Hframe.
  unfold_m. cbn [world history collected_data console].
  destruct (page_wait_for_selector E selector Attached 5000 (world s))
    as [[[]|e] w1]; cbn [fst snd world history collected_data console].
  all: destruct (page_query_selector_all E selector w1) as [r w2];
    cbn [fst]; intros ->; cbn [world history collected_data console].
  all: match goal with
       | |- context [scrape_elements ?found [] ?st] =>
           specialize (Hbound found st);
           destruct (Hframe found st) as (_ & Hd & _);
           destruct (scrape_elements found [] st) as [[data|e'] s3]
       end; cbn [fst snd world history collected_data console length] in *;
    [|exact I].
  all: destruct (py_eq_str value "finish");
    [|destruct (length data =? 0)%nat];
    cbn [fst snd world history collected_data console];
    exists data; rewrite Hd; auto.
Qed.
End Items.

Section Records.
Context {E : Env}.

(** A step appends at most one record, and it bears the step's number. *)
Lemma act_records step action selector value (s : state E) :
  collected_data (snd (act step action selector value s)) = collected_data s
  \/ exists data,
      collected_data (snd (act step action selector value s))
      = collected_data s ++ [ScrapeRecord step data].
Proof.
  unfold act, dispatch, try_except.
  destruct (py_eq_str action "type");
    [|destruct (py_eq_str action "click");
      [|destruct (py_eq_str action "scrape");
        [|destruct (py_eq_str action "finish")]]].
  - pose proof (do_type_effect selector value s) as H.
    destruct (do_type selector value s) as [[c|e] s1]; left.
    + now destruct H as (_ & _ & Hd).
    + now destruct H as [_ Hd].
  - pose proof (do_click_effect selector s) as H.
    destruct (do_click selector s) as [[c|e] s1]; left.
    + now destruct H as (_ & _ & Hd).
    + now destruct H as [_ Hd].
  - pose proof (do_scrape_effect step selector value s) as H.
    destruct (do_scrape step selector value s) as [[c|e] s1].
    + destruct H as (data & _ & Hd & _). right. now exists data.
    + left. now destruct H as [_ Hd].
  - now left.
  - now left.
Qed.

Lemma iteration_records step (s : state E) :
  collected_data (snd (iteration step s)) = collected_data s
  \/ exists data,
      collected_data (snd (iteration step s))
      = collected_data s ++ [ScrapeRecord step data].
Proof.
  destruct (observe_and_plan_same_lists step s) as [_ Hd].
  unfold iteration, bind.
  destruct (observe_and_plan step s) as [[[[[action selector] value]|]|e] s1];
    cbn [snd] in *; try now left.
  rewrite <- Hd. apply act_records.
Qed.

Lemma for_steps_record_steps n :
  forall first (s : state E),
  exists gathered,
    collected_data (snd (for_steps (seq first n) s)) = collected_data s ++ gathered
    /\ Forall (fun r => first <= rec_step r < first + n) gathered
    /\ StronglySorted lt (map rec_step gathered)
    /\ length gathered <= n.
Proof.
  induction n as [|n IH]; intros first s; cbn [seq].
  - exists []. cbn. rewrite app_nil_r. repeat split; constructor.
  - rewrite for_steps_cons.
    assert (Hhere : exists here,
               collected_data (snd (iteration first s)) = collected_data s ++ here
               /\ (here = [] \/ exists data, here = [ScrapeRecord first data])).
    { destruct (iteration_records first s) as [H | [data H]].
      - exists []. rewrite app_nil_r. auto.
      - exists [ScrapeRecord first data]. eauto. }
    destruct Hhere as (here & Hd & Hhere).
    assert (Hfirst : Forall (fun r => first <= rec_step r < first + S n) here
                     /\ StronglySorted lt (map rec_step here)
                     /\ length here <= 1).
    { destruct Hhere as [-> | [data ->]]; cbn.
      - repeat split; try constructor. lia.
      - repeat split; repeat constructor; cbn; lia. }
    destruct Hfirst as (Hrange & Hsorted & Hlen).
    destruct (iteration first s) as [[[|]|e] s1]; cbn [snd] in *;
      try (exists here; rewrite Hd; repeat split; auto; lia).
    destruct (IH (S first) s1) as (later & Hlater & Hrange' & Hsorted' & Hlen').
    exists (here ++ later). rewrite Hlater, Hd, app_assoc.
    split; [reflexivity|]. split; [|split].
    + apply Forall_app. split; [exact Hrange|].
      eapply Forall_impl; [|exact Hrange']. cbn. intros r Hr. lia.
    + destruct Hhere as [-> | [data ->]]; [exact Hsorted'|].
      cbn. constructor; [exact Hsorted'|].
      apply Forall_map. eapply Forall_impl; [|exact Hrange']. cbn.
      intros r Hr. lia.
    + rewrite length_app. lia.
Qed.

(** X14.  The records that the main loop appends bear the numbers of the steps
    that made them: numbers below MAX_STEPS, strictly increasing, hence
    at most one record per step and at most MAX_STEPS records. *)
Theorem main_loop_record_steps (s : state E) :
  exists gathered,
    collected_data (snd (main_loop s)) = collected_data s ++ gathered
    /\ Forall (fun r => rec_step r < MAX_STEPS) gathered
    /\ StronglySorted lt (map rec_step gathered)
    /\ length gathered <= MAX_STEPS.
Proof.
  destruct (for_steps_record_steps MAX_STEPS 0 s)
    as (gathered & Hd & Hrange & Hsorted & Hlen).
  exists gathered. split; [exact Hd|]. split; [|split; assumption].
  eapply Forall_impl; [|exact Hrange]. cbn. intros r Hr. lia.
Qed.

Lemma for_steps_history steps :
  forall s : state E,
  exists added,
    history (snd (for_steps steps s)) = history s ++ added
    /\ length added <= 2 * length steps.
Proof.
  induction steps as [|step rest IH]; intros s.
  - exists []. cbn. now rewrite app_nil_r.
  - rewrite for_steps_cons.
    destruct (iteration_effect step s) as (here & got & Hh & _ & _ & Hcases).
    assert (Hlen : length here <= 2)
      by (destruct Hcases as [? | (sel & Heq & _)]; [|rewrite Heq; cbn]; lia).
    destruct (iteration step s) as [[[|]|e] s1]; cbn [snd length] in *;
      try (exists here; split; [exact Hh | lia]).
    destruct (IH s1) as (later & Hlater & Hlen').
    exists (here ++ later). rewrite Hlater, Hh, app_assoc, length_app.
    split; [reflexivity | lia].
Qed.

(** X15.  Over the whole loop the history only grows at its end, and by at
    most two entries for each of the MAX_STEPS steps. *)
Theorem main_loop_history_bound (s : state E) :
  exists added,
    history (snd (main_loop s)) = history s ++ added
    /\ length added <= 2 * MAX_STEPS.
Proof.
  destruct (for_steps_history (seq 0 MAX_STEPS) s) as (added & Hh & Hlen).
  rewrite length_seq in Hlen. now exists added.
Qed.
End Records.

Section Finalisation.
Context {E : Env}.

(** X16.  When the first navigation fails, the loop is never entered: no step
    is begun and the planner is not asked.  The browser is closed all the
    same, the empty result is reported, and [run] raises the navigation
    error. *)
Theorem goto_failure_skips_loop (w : World E) e w1 w2 :
  page_goto E (TARGET_URL E) w = (Raised e, w1) ->
  browser_close E w1 = (Ok tt, w2) ->
  run (init w)
  = (Raised e,
     State w2 [] [] [StartingAgent (TARGET_URL E) (GOAL E); NoDataCollected]).
Proof.
  intros Hgoto Hclose. unfold run, save_results, try_finally, init. unfold_m.
  cbn [world history collected_data console]. rewrite Hgoto.
  cbn [world history collected_data console]. rewrite Hclose. reflexivity.
Qed.

(** X17.  However the loop ends, by a break, by exhaustion or by an exception,
    once the browser is closed the records collected so far, if any, are
    written, all of them and in order, and [run] ends as the loop did. *)
Theorem run_saves_collected_data (s : state E) w0 r s1 w2 w3 :
  page_goto E (TARGET_URL E) (world s) = (Ok tt, w0) ->
  main_loop (State w0 (history s) (collected_data s)
                   (console s ++ [StartingAgent (TARGET_URL E) (GOAL E)]))
  = (r, s1) ->
  collected_data s1 <> [] ->
  browser_close E (world s1) = (Ok tt, w2) ->
  json_dump_to_file E (collected_data s1) w2 = (Ok tt, w3) ->
  run s
  = (r, State w3 (history s1) (collected_data s1)
              (console s1 ++ [DataSaved "gemini_agent_results.json"])).
Proof.
  intros Hgoto Hloop Hdata Hclose Hdump.
  unfold run, save_results, try_finally. unfold_m.
  cbn [world history collected_data console]. rewrite Hgoto.
  cbn [world history collected_data console]. rewrite Hloop.
  destruct r as [c|e]; rewrite Hclose;
    cbn [world history collected_data console];
    destruct (collected_data s1) as [|r0 rest] eqn:Hc; try congruence;
    cbn [world history collected_data console];
    rewrite Hdump; reflexivity.
Qed.

(** X18.  When closing the browser fails, [save_results] is not reached: the
    records collected are not written, and [run] raises the error of the
    close, also when the loop itself had ended well. *)
Theorem close_failure_loses_results (s : state E) w0 r s1 e w2 :
  page_goto E (TARGET_URL E) (world s) = (Ok tt, w0) ->
  main_loop (State w0 (history s) (collected_data s)
                   (console s ++ [StartingAgent (TARGET_URL E) (GOAL E)]))
  = (r, s1) ->
  browser_close E (world s1) = (Raised e, w2) ->
  run s = (Raised e, State w2 (history s1) (collected_data s1) (console s1)).
Proof.
  intros Hgoto Hloop Hclose.
  unfold run, save_results, try_finally. unfold_m.
  cbn [world history collected_data console]. rewrite Hgoto.
  cbn [world history collected_data console]. rewrite Hloop.
  destruct r as [c|e']; rewrite Hclose; reflexivity.
Qed.
End Finalisation.
End WebAgentMore.

Module StartupFacts.
Import Startup.

Lemma rstrip_app_kept front : forall back,
  back <> "" -> rstrip back = back ->
  rstrip (front ++ back)%string = (front ++ back)%string.
Proof.
  induction front as [|c front IH]; intros back Hne Hfix; cbn [append];
    [exact Hfix|].
  cbn [rstrip]. rewrite (IH back Hne Hfix).
  destruct (front ++ back)%string eqn:Hcat; [|reflexivity].
  destruct front; cbn in Hcat; congruence.
Qed.

Lemma strip_fixed_rstrip typed : rstrip (strip typed) = strip typed.
Proof. unfold strip. apply rstrip_idempotent. Qed.

Lemma https_strip back :
  strip back = back ->
  strip ("https://" ++ back)%string = ("https://" ++ back)%string.
Proof.
  intros Hfix. unfold strip at 1.
  change (lstrip ("https://" ++ back)%string) with ("https://" ++ back)%string.
  destruct back as [|c back]; [reflexivity|].
  apply rstrip_app_kept; [discriminate|].
  rewrite <- Hfix at 1. rewrite strip_fixed_rstrip. exact Hfix.
Qed.

(** X19.  Whatever line is typed, the start URL is the trimmed line
    itself when that begins with http, and the trimmed line with https://
    in front otherwise, the empty line too; so it always begins with
    http and has no white space around it, and treating the result again
    changes nothing. *)
Theorem target_url_of_normal (typed : string) :
  target_url_of typed
  = (if prefix "http" (strip typed)
     then strip typed
     else ("https://" ++ strip typed)%string)
  /\ prefix "http" (target_url_of typed) = true
  /\ strip (target_url_of typed) = target_url_of typed
  /\ target_url_of (target_url_of typed) = target_url_of typed.
Proof.
  assert (Hstrip : strip (target_url_of typed) = target_url_of typed).
  { unfold target_url_of. cbv zeta.
    destruct (prefix "http" (strip typed));
      [apply strip_idempotent | apply https_strip, strip_idempotent]. }
  assert (Hhttp : prefix "http" (target_url_of typed) = true).
  { unfold target_url_of. cbv zeta.
    destruct (prefix "http" (strip typed)) eqn:Hp; [exact Hp | reflexivity]. }
  split; [reflexivity|]. split; [exact Hhttp|]. split; [exact Hstrip|].
  unfold target_url_of at 1. cbv zeta. now rewrite Hstrip, Hhttp.
Qed.

Lemma prefix_app needle hay :
  prefix needle hay = true <-> exists back, hay = (needle ++ back)%string.
Proof.
  revert hay. induction needle as [|c needle IH]; intros [|d hay].
  - split; [now exists "" | reflexivity].
  - split; [now exists (String d hay) | reflexivity].
  - split; [discriminate | intros [back H]; discriminate].
  - cbn [prefix]. destruct (Ascii.ascii_dec c d) as [-> | Hcd].
    + rewrite IH. split; intros [back H]; exists back; cbn in *; congruence.
    + split; [discriminate|]. intros [back H]. cbn in H. congruence.
Qed.

Lemma contains_app needle hay :
  contains needle hay = true
  <-> exists front back, hay = (front ++ needle ++ back)%string.
Proof.
  induction hay as [|d hay IH]; cbn [contains]; rewrite orb_true_iff.
  - rewrite prefix_app. split.
    + intros [[back H] | H]; [|discriminate]. now exists "", back.
    + intros (front & back & H). left. exists back.
      destruct front; cbn in H; [exact H | discriminate].
  - rewrite prefix_app, IH. split.
    + intros [[back H] | (front & back & H)].
      * now exists "", back.
      * exists (String d front), back. cbn. now rewrite H.
    + intros (front & back & H). destruct front as [|c front]; cbn in H.
      * left. now exists back.
      * right. exists front, back. congruence.
Qed.

(** X20.  The constructor of the planner refuses a key exactly when the
    placeholder YOUR_GEMINI occurs somewhere in it, and then with a
    ValueError; any other key passes the guard, the empty key that the
    file ships with among them. *)
Theorem check_api_key_guard (api_key : string) :
  (check_api_key api_key = Ok tt
   \/ exists msg, check_api_key api_key = Raised (Exn "ValueError" msg))
  /\ (check_api_key api_key <> Ok tt
      <-> exists front back,
          api_key = (front ++ "YOUR_GEMINI" ++ back)%string)
  /\ check_api_key GEMINI_API_KEY = Ok tt.
Proof.
  split; [|split; [|reflexivity]].
  - unfold check_api_key. destruct (contains "YOUR_GEMINI" api_key); eauto.
  - rewrite <- contains_app. unfold check_api_key.
    destruct (contains "YOUR_GEMINI" api_key); split; congruence.
Qed.

Example target_url_of_examples :
  target_url_of "  example.org " = "https://example.org"
  /\ target_url_of "http://example.org" = "http://example.org"
  /\ target_url_of "" = "https://"
  /\ target_url_of "ftp://example.org" = "https://ftp://example.org"
  /\ target_url_of "httpd.apache.org" = "httpd.apache.org".
Proof. repeat split. Qed.
End StartupFacts.

Module MoreRuns.
Import AgentPlanner WebAgent WebAgentFacts WebAgentMore Script Outage.

Lemma unreadable_page_ends_loop_witness :
  let s := init (E := unreadable) (Scripted [says "type X"] []) in
  page_content unreadable (world s) = (Raised TargetClosed, world s)
  /\ for_steps [0; 1] s
     = (Ok Broke,
        State (world s) [] []
              [StepBanner (0 + 1) MAX_STEPS; ErrorReadingPage TargetClosed]).
Proof.
  intros s. split; [reflexivity|].
  exact (unreadable_page_ends_loop 0 [1] s TargetClosed (world s) eq_refl).
Defined.

Lemma finish_action_ends_loop_witness :
  let s := start [fails; says "type X"] in
  let s1 := snd (observe_and_plan 0 s) in
  observe_and_plan 0 s = (Ok (Some (PStr "finish", PNone, PNone)), s1)
  /\ for_steps [0; 1] s
     = (Ok Broke,
        State (world s1) (history s) (collected_data s)
              (console s1 ++ [GoalAchieved])).
Proof.
  intros s s1. split; [reflexivity|].
  exact (finish_action_ends_loop 0 [1] s s1 PNone PNone eq_refl).
Defined.

Lemma failed_wait_skips_interaction_witness :
  let s := start [] in
  page_wait_for_selector env (PStr ".missing") Visible TIMEOUT_MS (world s)
  = (Raised TimeoutError, world s)
  /\ act 0 (PStr "type") (PStr ".missing") (PStr "X") s
     = (Ok Continue,
        State (world s)
              (history s
               ++ [failure_message env (PStr "type") (PStr ".missing") TimeoutError])
              (collected_data s)
              (console s
               ++ [ErrorLine (failure_message env (PStr "type") (PStr ".missing")
                                              TimeoutError)])).
Proof.
  intros s. split; [reflexivity|].
  exact (failed_wait_skips_interaction 0 (PStr "type") (PStr ".missing")
           (PStr "X") s TimeoutError (world s) (or_introl eq_refl) eq_refl).
Defined.

Lemma click_ignores_idle_timeout_witness :
  let s := init (E := never_idle) (Scripted [] []) in
  let w2 : World never_idle := Scripted [] ["click #submit"] in
  page_wait_for_selector never_idle (PStr "#submit") Visible TIMEOUT_MS (world s)
  = (Ok tt, world s)
  /\ page_click never_idle (PStr "#submit") (world s) = (Ok tt, w2)
  /\ page_wait_for_load_state never_idle "networkidle" 5000%Z w2
     = (Raised TimeoutError, w2)
  /\ act 0 (PStr "click") (PStr "#submit") PNone s
     = (Ok Continue,
        State w2 (history s ++ [clicked_entry never_idle (PStr "#submit")])
              (collected_data s) (console s)).
Proof.
  intros s w2. split; [reflexivity|]. split; [reflexivity|].
  split; [reflexivity|].
  exact (click_ignores_idle_timeout 0 (PStr "#submit") PNone s (world s) w2
           eq_refl eq_refl).
Defined.

Lemma non_object_plan_aborts_witness :
  let s := start [says "a list"; says "type X"] in
  page_content env (world s)
  = (Ok "<!DOCTYPE html><html>...</html>", world s)
  /\ json_loads env "a list" = Ok (PList [PInt 1; PInt 2])
  /\ for_steps [0; 1] s
     = (Raised (AttributeError (PList [PInt 1; PInt 2]) "get"),
        State (E := env) (Scripted [says "type X"] []) (history s)
              (collected_data s)
              (console s ++ [StepBanner (0 + 1) MAX_STEPS;
                             PlannerThinking "https://example.org/"])).
Proof.
  intros s. split; [reflexivity|]. split; [reflexivity|].
  refine (non_object_plan_aborts 0 [1] s "<!DOCTYPE html><html>...</html>"
            (world s) "a list" (Scripted [says "type X"] [])
            (PList [PInt 1; PInt 2]) eq_refl eq_refl eq_refl _).
  intros entries. discriminate.
Defined.

Lemma filler_length n : String.length (filler n) = n.
Proof. induction n as [|n IH]; cbn; congruence. Qed.

Lemma planner_reads_a_prefix_witness :
  String.length (filler (30 * 1000)) = 30 * 1000
  /\ get_next_action "u" (filler (30 * 1000) ++ "<a>")%string [] (start [fails])
     = get_next_action "u" (filler (30 * 1000) ++ "<button>")%string []
                       (start [fails]).
Proof.
  pose proof (filler_length (30 * 1000)) as Hlen.
  split; [exact Hlen|].
  exact (planner_reads_a_prefix "u" (filler (30 * 1000)) "<a>" "<button>" []
           (start [fails]) Hlen).
Defined.

Lemma scrape_elements_static_witness :
  static_reads (E := env) fst snd
  /\ scrape_elements (E := env) results [] (start [])
     = (Ok ([] ++ flat_map (item_of (E := env) fst snd) results), start []).
Proof.
  assert (Hstatic : static_reads (E := env) fst snd)
    by (intros el w; split; reflexivity).
  split; [exact Hstatic|].
  exact (scrape_elements_static (E := env) fst snd results Hstatic []
           (start [])).
Defined.

Lemma scrape_record_bound_witness :
  let s := start [] in
  matched_elements (PStr ".result") (world s) = Ok results
  /\ match do_scrape 0 (PStr ".result") PNone s with
     | (Ok _, s') =>
         exists data,
           collected_data s' = collected_data s ++ [ScrapeRecord 0 data]
           /\ length data <= length results
     | (Raised _, _) => True
     end.
Proof.
  intros s. split; [reflexivity|].
  exact (scrape_record_bound (E := env) 0 (PStr ".result") PNone s results
           eq_refl).
Defined.

Lemma goto_failure_skips_loop_witness :
  let w : World offline := Scripted [says "type X"] [] in
  page_goto offline (TARGET_URL offline) w = (Raised NetworkError, w)
  /\ browser_close offline w = (Ok tt, w)
  /\ run (init (E := offline) w)
     = (Raised NetworkError,
        State w [] []
              [StartingAgent (TARGET_URL offline) (GOAL offline);
               NoDataCollected]).
Proof.
  intros w. split; [reflexivity|]. split; [reflexivity|].
  exact (goto_failure_skips_loop (E := offline) w NetworkError w w
           eq_refl eq_refl).
Defined.

Lemma run_saves_collected_data_witness :
  let s := start [says "scrape results"; says "no action"] in
  let after :=
    main_loop (State (world s) (history s) (collected_data s)
                     (console s ++ [StartingAgent (TARGET_URL env) (GOAL env)])) in
  fst after = Raised (AttributeError PNone "upper")
  /\ length (collected_data (snd after)) = 1
  /\ run s
     = (fst after,
        State (world (snd after)) (history (snd after))
              (collected_data (snd after))
              (console (snd after) ++ [DataSaved "gemini_agent_results.json"])).
Proof.
  intros s after. split; [reflexivity|]. split; [reflexivity|].
  refine (run_saves_collected_data s (world s) (fst after) (snd after)
            (world (snd after)) (world (snd after)) eq_refl _ _ eq_refl eq_refl).
  - apply surjective_pairing.
  - vm_compute. discriminate.
Defined.

Lemma close_failure_loses_results_witness :
  let s := init (E := stuck_browser)
                (Scripted [says "scrape results, finish"] []) in
  let after :=
    main_loop (State (world s) (history s) (collected_data s)
                     (console s ++ [StartingAgent (TARGET_URL stuck_browser)
                                                  (GOAL stuck_browser)])) in
  fst after = Ok Broke
  /\ length (collected_data (snd after)) = 1
  /\ run s
     = (Raised TargetClosed,
        State (world (snd after)) (history (snd after))
              (collected_data (snd after)) (console (snd after))).
Proof.
  intros s after. split; [reflexivity|]. split; [reflexivity|].
  refine (close_failure_loses_results s (world s) (fst after) (snd after)
            TargetClosed (world (snd after)) eq_refl _ eq_refl).
  apply surjective_pairing.
Defined.

Lemma unknown_action_costs_a_step_witness :
  let s := start [says "hover"; says "type X"] in
  let s1 := snd (observe_and_plan 0 s) in
  observe_and_plan 0 s = (Ok (Some (PStr "hover", PStr "#submit", PNone)), s1)
  /\ ~ In "hover" ["type"; "click"; "scrape"; "finish"]
  /\ for_steps [0; 1] s
     = for_steps [1]
         (State (world s1) (history s) (collected_data s)
                (console s1 ++ [UnknownAction (PStr "hover")])).
Proof.
  intros s s1.
  assert (Hnot : ~ In "hover" ["type"; "click"; "scrape"; "finish"])
    by (cbn; intuition discriminate).
  split; [reflexivity|]. split; [exact Hnot|].
  exact (unknown_action_costs_a_step 0 [1] s s1 "hover" (PStr "#submit") PNone
           eq_refl Hnot).
Defined.

Lemma failed_scrape_continues_witness :
  let s := start [says "scrape bad selector, finish"; says "type X"] in
  let s1 := snd (observe_and_plan 0 s) in
  observe_and_plan 0 s
  = (Ok (Some (PStr "scrape", PStr "li:contains(x)", PStr "finish")), s1)
  /\ fst (do_scrape 0 (PStr "li:contains(x)") (PStr "finish") s1)
     = Raised SelectorError
  /\ exists s2,
      iteration 0 s = (Ok Continue, s2)
      /\ collected_data s2 = collected_data s
      /\ history s2
         = history s
           ++ [failure_message env (PStr "scrape") (PStr "li:contains(x)")
                               SelectorError]
      /\ for_steps [0; 1] s = for_steps [1] s2.
Proof.
  intros s s1. split; [reflexivity|]. split; [reflexivity|].
  exact (failed_scrape_continues 0 [1] s s1 (PStr "li:contains(x)")
           (PStr "finish") SelectorError eq_refl eq_refl).
Defined.

End MoreRuns.
